(** * Watch Store API

    A model of the HTTP handlers of [main.py] (catalogue of watches, cart,
    checkout) over an explicit document store, and proofs of the endpoint
    contracts.

    Conventions.
    - A Python [dict] is a finite map from field names to values.
    - A handler is a function of the global connection handle [db]
      ([None] when the connection failed) returning what the Python function
      returns or the exception it raises, together with the store afterwards.
    - Python's [float] is IEEE binary64 (primitive floats); [int] is [Z].
    - Strings are sequences of ASCII characters. *)

From Stdlib Require Import ZArith Floats Ascii String List Lia.
From stdpp Require Import base option list gmap strings.

Set Warnings "-register-all".
Local Open Scope string_scope.
Local Open Scope Z_scope.

(** ** Python values *)

(** [bson.ObjectId]: a 12-byte identifier, kept as the number it encodes
    (below [2^96]); [Oid.of_bytes] numbers the identifiers of fewer bytes
    that [ObjectId(str)] lets through. *)
Definition ObjectId : Type := N.

Inductive value : Type :=
| VNone
| VBool (b : bool)
| VInt (z : Z)
| VFloat (f : float)
| VStr (s : string)
| VOid (o : ObjectId)
| VList (l : list value)
| VDict (d : gmap string value).

Abbreviation dict := (gmap string value).

(** ** Exceptions *)

Inductive exn : Type :=
| HTTPException (status_code : Z) (detail : string)
| InvalidId
| KeyError (key : string)
| TypeError
| OverflowError
| NotModelled (what : string).

Inductive result (A : Type) : Type :=
| Return (a : A)
| Raise (e : exn).
Arguments Return {A} a.
Arguments Raise {A} e.

#[global] Instance result_ret : MRet result := λ A a, Return a.
#[global] Instance result_bind : MBind result := λ A B f m,
  match m with
  | Return a => f a
  | Raise e => Raise e
  end.

(** ** Numbers *)

Module Num.

(** [float(n)] for an integer [n]: the nearest binary64 value, ties to
    even; [OverflowError] when that is not finite, which is from
    [2^1024 - 2^970] on, half-way between the largest float and [2^1024]. *)
Definition int_to_float (z : Z) : result float :=
  if Z.abs z <? 2 ^ 1024 - 2 ^ 970
  then Return (SF2Prim (binary_normalize prec emax z 0 false))
  else Raise OverflowError.

(** The integer nearest to [m * 2^e], ties to even. *)
Definition round_half_even (m e : Z) : Z :=
  if 0 <=? e then m * 2 ^ e
  else
    let k := 2 ^ (- e) in
    let q := m / k in
    match 2 * (m mod k) ?= k with
    | Lt => q
    | Gt => q + 1
    | Eq => if Z.even q then q else q + 1
    end.

(** [round(x, 2)] for a float: the decimal with two fractional digits
    nearest to the exact value of [x] (ties to even), converted back to
    the nearest binary64 value; infinities and NaN round to themselves. *)
Definition float_round2 (x : float) : float :=
  match Prim2SF x with
  | S754_finite s m e =>
      match round_half_even (100 * Z.pos m) e with
      | Z.pos n =>
          SF2Prim (SFdiv prec emax (S754_finite s n 0) (S754_finite false 100 0))
      | _ => SF2Prim (S754_zero s)
      end
  | _ => x
  end.

(** The numeric tower: [bool] is a subclass of [int]. *)
Inductive number : Type :=
| NInt (z : Z)
| NFloat (f : float).

Definition as_number (v : value) : option number :=
  match v with
  | VBool b => Some (NInt (if b then 1 else 0))
  | VInt z => Some (NInt z)
  | VFloat f => Some (NFloat f)
  | _ => None
  end.

Definition to_float (n : number) : result float :=
  match n with
  | NInt z => int_to_float z
  | NFloat f => Return f
  end.

Definition binop (fint : Z → Z → Z) (ffloat : float → float → float)
    (a b : value) : result value :=
  match as_number a, as_number b with
  | Some (NInt x), Some (NInt y) => Return (VInt (fint x y))
  | Some x, Some y =>
      fx ← to_float x; fy ← to_float y; Return (VFloat (ffloat fx fy))
  | _, _ => Raise TypeError
  end.

(** [a * b] and [a + b] on numbers.  A product with a non-numeric operand
    either raises [TypeError] or is a sequence that [sum] cannot add to
    its integer start, which raises [TypeError] too: both are [TypeError]
    here. *)
Definition py_mul : value → value → result value := binop Z.mul PrimFloat.mul.
Definition py_add : value → value → result value := binop Z.add PrimFloat.add.

(** [float(v)] *)
Definition py_float (v : value) : result value :=
  match v with
  | VStr _ => Raise (NotModelled "float() of a string")
  | _ =>
      match as_number v with
      | Some n => f ← to_float n; Return (VFloat f)
      | None => Raise TypeError
      end
  end.

(** [round(v, 2)]: an integer rounds to itself. *)
Definition py_round2 (v : value) : result value :=
  match as_number v with
  | Some (NInt z) => Return (VInt z)
  | Some (NFloat f) => Return (VFloat (float_round2 f))
  | None => Raise TypeError
  end.

(** [sum(f(i) for i in items)]: the generator is consumed from left to
    right, each term being computed just before it is added to the running
    total with [+] (interpreters from 3.12 on compensate the rounding
    errors of a float total; a total of one term, or of terms that add
    without rounding, is the same). *)
Fixpoint sum_from {A : Type} (f : A → result value) (items : list A)
    (acc : value) : result value :=
  match items with
  | [] => Return acc
  | i :: rest => term ← f i; acc' ← py_add acc term; sum_from f rest acc'
  end.

Definition py_sum {A : Type} (f : A → result value) (items : list A) : result value :=
  sum_from f items (VInt 0).

End Num.

(** ** Object identifiers *)

Module Oid.

Definition hex_digit (c : ascii) : option N :=
  let n := N_of_ascii c in
  if (48 <=? n)%N && (n <=? 57)%N then Some (n - 48)%N
  else if (97 <=? n)%N && (n <=? 102)%N then Some (n - 87)%N
  else if (65 <=? n)%N && (n <=? 70)%N then Some (n - 55)%N
  else None.

(** The characters [bytes.fromhex] skips between two bytes: ASCII white
    space (tab to carriage return, and the blank). *)
Definition is_space (c : ascii) : bool :=
  let n := N_of_ascii c in
  ((9 <=? n)%N && (n <=? 13)%N) || (n =? 32)%N.

(** [bytes.fromhex(s)]: bytes of two adjacent hexadecimal digits each, with
    white space allowed before, between and after them ([None] for
    [ValueError]).  The bytes read so far are the [count] low bytes of
    [acc]. *)
Fixpoint fromhex (s : string) (acc : N) (count : nat) : option (N * nat) :=
  match s with
  | EmptyString => Some (acc, count)
  | String c rest =>
      if is_space c then fromhex rest acc count
      else
        match hex_digit c, rest with
        | Some hi, String c' rest' =>
            match hex_digit c' with
            | Some lo => fromhex rest' (256 * acc + 16 * hi + lo)%N (S count)
            | None => None
            end
        | _, _ => None
        end
  end.

(** The identifier made of [count] bytes writing the number [o].  Twelve
    bytes are the identifiers of documents, the numbers below [2^96]; an
    identifier of fewer bytes, which [bytes.fromhex] leaves of a string with
    white space, is no document's and is numbered from [2^96] up. *)
Definition of_bytes (o : N) (count : nat) : ObjectId :=
  if (count =? 12)%nat then o else (2 ^ 96 + 2 ^ (8 * N.of_nat count) + o)%N.

(** [ObjectId(s)]: a string of 24 characters that [bytes.fromhex] reads,
    else [InvalidId]. *)
Definition parse (s : string) : result ObjectId :=
  if (String.length s =? 24)%nat then
    match fromhex s 0%N 0 with
    | Some (o, count) => Return (of_bytes o count)
    | None => Raise InvalidId
    end
  else Raise InvalidId.

Definition hex_char (d : N) : ascii :=
  ascii_of_N (if (d <? 10)%N then 48 + d else 87 + d)%N.

Fixpoint hex_digits (k : nat) (n : N) (acc : string) : string :=
  match k with
  | O => acc
  | S k' => hex_digits k' (n / 16)%N (String (hex_char (n mod 16)%N) acc)
  end.

(** [str(oid)]: 24 lower-case hexadecimal digits. *)
Definition str (o : ObjectId) : string := hex_digits 24 o "".

End Oid.

(** ** Regular expressions of the store

    The store matches [$regex] patterns with PCRE.  The model covers the
    patterns made of literal characters, the wildcard [.] and
    backslash-escaped punctuation; every other pattern is outside the model
    ([compile] gives [None]). *)

Module Regex.

Inductive atom : Type :=
| Lit (c : ascii)
| AnyChar.

Definition is_upper (c : ascii) : bool :=
  let n := N_of_ascii c in (65 <=? n)%N && (n <=? 90)%N.

Definition is_alnum (c : ascii) : bool :=
  let n := N_of_ascii c in
  ((48 <=? n)%N && (n <=? 57)%N) || ((65 <=? n)%N && (n <=? 90)%N)
  || ((97 <=? n)%N && (n <=? 122)%N).

(** Characters with a special meaning in a pattern. *)
Definition metachars : list ascii :=
  list_ascii_of_string "\^$.|?*+()[]{}".

Definition is_meta (c : ascii) : bool :=
  existsb (Ascii.eqb c) metachars.

(** A character that stands for itself in a pattern. *)
Definition is_plain (c : ascii) : bool :=
  (N_of_ascii c <? 128)%N && negb (is_meta c).

Fixpoint compile (p : string) : option (list atom) :=
  match p with
  | EmptyString => Some []
  | String c rest =>
      if Ascii.eqb c "."%char then cons AnyChar <$> compile rest
      else if Ascii.eqb c "\"%char then
        match rest with
        | String c' rest' =>
            if (N_of_ascii c' <? 128)%N && negb (is_alnum c')
            then cons (Lit c') <$> compile rest'
            else None
        | EmptyString => None
        end
      else if is_plain c then cons (Lit c) <$> compile rest
      else None
  end.

Definition lower (c : ascii) : ascii :=
  if is_upper c then ascii_of_N (N_of_ascii c + 32) else c.

Definition match_atom (caseless : bool) (a : atom) (c : ascii) : bool :=
  match a with
  | Lit x => if caseless then Ascii.eqb (lower x) (lower c) else Ascii.eqb x c
  | AnyChar => negb (Ascii.eqb c "010"%char)
  end.

(** The atoms match a prefix of the text. *)
Fixpoint match_here (caseless : bool) (atoms : list atom) (text : string) : bool :=
  match atoms, text with
  | [], _ => true
  | a :: atoms', String c text' =>
      match_atom caseless a c && match_here caseless atoms' text'
  | _ :: _, EmptyString => false
  end.

(** The atoms match somewhere in the text (an unanchored search). *)
Fixpoint search (caseless : bool) (atoms : list atom) (text : string) : bool :=
  match_here caseless atoms text
  || match text with
     | EmptyString => false
     | String _ text' => search caseless atoms text'
     end.

(** [$options]: only the empty string and ["i"] are in the model. *)
Definition caseless_option (options : string) : option bool :=
  if String.eqb options "" then Some false
  else if String.eqb options "i" then Some true
  else None.

End Regex.

(** ** The document store *)

(** A stored document: the store gives every document an [_id]. *)
Record document : Type := Document { _id : ObjectId; fields : dict }.

(** [db]: the collections by name (a collection that was never written is
    empty) and the next identifier the driver generates. *)
Record Database : Type := {
  collections : gmap string (list document);
  next_oid : ObjectId
}.

Definition db_collection (d : Database) (name : string) : list document :=
  default [] (collections d !! name).

(** The [dict] the driver decodes a stored document into. *)
Definition to_dict (doc : document) : dict :=
  <["_id" := VOid (_id doc)]> (fields doc).

(** *** Queries *)

(** The conditions this program puts on a field: equality with a string or
    an identifier, and [{"$regex": pattern, "$options": options}]. *)
Inductive condition : Type :=
| Eq_str (s : string)
| Eq_oid (o : ObjectId)
| Regex_cond (pattern options : string).

(** A filter object, in insertion order. *)
Definition query : Type := list (string * condition).

Inductive test : Type :=
| Test_str (s : string)
| Test_oid (o : ObjectId)
| Test_regex (caseless : bool) (atoms : list Regex.atom).

Definition compile_condition (c : condition) : result test :=
  match c with
  | Eq_str s => Return (Test_str s)
  | Eq_oid o => Return (Test_oid o)
  | Regex_cond pattern options =>
      match Regex.caseless_option options, Regex.compile pattern with
      | Some caseless, Some atoms => Return (Test_regex caseless atoms)
      | _, _ => Raise (NotModelled "regular expression")
      end
  end.

Fixpoint compile_query (q : query) : result (list (string * test)) :=
  match q with
  | [] => Return []
  | (k, c) :: rest =>
      t ← compile_condition c; ts ← compile_query rest; Return ((k, t) :: ts)
  end.

Definition scalar_test (t : test) (v : value) : bool :=
  match t, v with
  | Test_str s, VStr x => String.eqb x s
  | Test_oid o, VOid x => (x =? o)%N
  | Test_regex caseless atoms, VStr x => Regex.search caseless atoms x
  | _, _ => false
  end.

(** A condition on a field holds of the field's value, or of an element
    when the value is an array. *)
Definition field_test (t : test) (fld : option value) : bool :=
  match fld with
  | Some (VList l) => existsb (scalar_test t) l
  | Some v => scalar_test t v
  | None => false
  end.

Definition matches (tests : list (string * test)) (d : dict) : bool :=
  forallb (λ kt, field_test kt.2 (d !! kt.1)) tests.

(** ** Handlers: state and exceptions *)

(** A computation on the store: its outcome and the store afterwards (an
    exception does not undo earlier writes). *)
Definition App (A : Type) : Type := Database → result A * Database.

#[global] Instance App_ret : MRet App := λ A a d, (Return a, d).
#[global] Instance App_bind : MBind App := λ A B f m d,
  match m d with
  | (Return a, d') => f a d'
  | (Raise e, d') => (Raise e, d')
  end.

Definition raise {A : Type} (e : exn) : App A := λ d, (Raise e, d).

Definition lift {A : Type} (r : result A) : App A := λ d, (r, d).

(** [try: body / except Exception: handler]: every exception of the model
    is an [Exception], [HTTPException] included. *)
Definition try_except {A : Type} (body : App A) (handler : exn → App A) : App A :=
  λ d,
    match body d with
    | (Return a, d') => (Return a, d')
    | (Raise e, d') => handler e d'
    end.

(** [for x in l: body x] *)
Fixpoint for_each {A : Type} (l : list A) (body : A → App ()) : App () :=
  match l with
  | [] => mret ()
  | x :: rest => _ ← body x; for_each rest body
  end.

(** *** The driver *)

Module pymongo.

(** [db[name].find(q)], as a list *)
Definition find (name : string) (q : query) : App (list dict) := λ d,
  match compile_query q with
  | Return tests =>
      (Return (List.filter (matches tests) (to_dict <$> db_collection d name)), d)
  | Raise e => (Raise e, d)
  end.

(** [db[name].find_one(q)] *)
Definition find_one (name : string) (q : query) : App (option dict) :=
  docs ← find name q; mret (head docs).

(** [db[name].count_documents(q)] *)
Definition count_documents (name : string) (q : query) : App Z :=
  docs ← find name q; mret (Z.of_nat (length docs)).

(** [db[name].insert_one(data)], for a [data] without [_id], for which the
    driver generates one, and whose integers are of 64 bits at most: the
    driver raises [OverflowError] on others and stores nothing, a case that
    is not modelled.  Of the values the handlers store, the [quantity] of a
    request alone is not read from the store or a constant: the theorems
    that state a write of it take it within 64 bits ([int64],
    [storable]). *)
Definition insert_one (name : string) (data : dict) : App ObjectId := λ d,
  let o := next_oid d in
  (Return o,
   {| collections := <[name := (db_collection d name ++ [Document o data])%list]> (collections d);
      next_oid := N.succ o |}).

End pymongo.

(** *** [database.py] *)

(** Modelled from the spec: [create_document] of [database.py], which is not
    among the sources.  "insert(collectionName, document) -> id: appends
    document, returns a newly generated unique identifier as a string." *)
Definition create_document (collection_name : string) (data : dict) : App string :=
  o ← pymongo.insert_one collection_name data; mret (Oid.str o).

(** Modelled from the spec: [get_documents] of [database.py], which is not
    among the sources.  "query(collectionName, filter) -> sequence<document>:
    returns all matching documents". *)
Definition get_documents (collection_name : string) (filter_dict : query) : App (list dict) :=
  pymongo.find collection_name filter_dict.

(** *** Python helpers *)

(** [d.pop(k)] *)
Definition dict_pop (k : string) (d : dict) : result (value * dict) :=
  match d !! k with
  | Some v => Return (v, delete k d)
  | None => Raise (KeyError k)
  end.

(** [d.get(k, dflt)] *)
Definition dict_get (k : string) (dflt : value) (d : dict) : value :=
  default dflt (d !! k).

(** [str(v)] for the values this program converts: identifiers. *)
Definition py_str (v : value) : result string :=
  match v with
  | VOid o => Return (Oid.str o)
  | VStr s => Return s
  | _ => Raise (NotModelled "str()")
  end.

(** [d["id"] = str(d.pop("_id"))] *)
Definition rename_id (d : dict) : result dict :=
  match dict_pop "_id" d with
  | Return (v, d') => s ← py_str v; Return (<["id" := VStr s]> d')
  | Raise e => Raise e
  end.

(** [for d in docs: d["id"] = str(d.pop("_id"))], giving the list after the
    loop. *)
Fixpoint rename_ids (docs : list dict) : result (list dict) :=
  match docs with
  | [] => Return []
  | d :: rest => d' ← rename_id d; rest' ← rename_ids rest; Return (d' :: rest')
  end.

(** A [dict] display. *)
Definition py_dict (items : list (string * value)) : dict := list_to_map items.

(** An [Optional[str]] parameter when it is true: neither [None] nor the
    empty string. *)
Definition truthy_str (s : option string) : option string :=
  match s with
  | Some s => if String.eqb s EmptyString then None else Some s
  | None => None
  end.

(** What [find_one] returned when it is true: neither [None] nor the empty
    [dict]. *)
Definition truthy_doc (doc : option dict) : option dict :=
  match doc with
  | Some d => if bool_decide (dom d = ∅) then None else Some d
  | None => None
  end.

(** [Optional[str]] as a value *)
Definition of_optional (s : option string) : value :=
  match s with
  | Some s => VStr s
  | None => VNone
  end.

(** ** The endpoints of [main.py] *)

Definition Handler (A : Type) : Type := option Database → result A * option Database.

(** [if db is None: raise HTTPException(status_code=500, ...)], then the
    rest of the handler. *)
Definition with_db {A : Type} (body : App A) : Handler A := λ db,
  match db with
  | None => (Raise (HTTPException 500 "Database not available"), None)
  | Some d => let '(r, d') := body d in (r, Some d')
  end.

Definition sample : list dict := [
  py_dict [
    ("title", VStr "ChronoMaster Pro");
    ("description", VStr "Stainless steel chronograph with sapphire crystal.");
    ("price", VFloat 599.0);
    ("brand", VStr "Aeternum");
    ("collection", VStr "chronograph");
    ("image", VStr "https://images.unsplash.com/photo-1518081461904-9acda21b54fd?q=80&w=1200&auto=format&fit=crop");
    ("images", VList [
      VStr "https://images.unsplash.com/photo-1518081461904-9acda21b54fd?q=80&w=1200&auto=format&fit=crop";
      VStr "https://images.unsplash.com/photo-1490367532201-b9bc1dc483f6?q=80&w=1200&auto=format&fit=crop"]);
    ("in_stock", VBool true)];
  py_dict [
    ("title", VStr "Elegance Dress 40");
    ("description", VStr "Ultra-thin automatic dress watch in rose gold tone.");
    ("price", VFloat 749.0);
    ("brand", VStr "Novelle");
    ("collection", VStr "dress");
    ("image", VStr "https://images.unsplash.com/photo-1516570161787-2fd917215a3d?q=80&w=1200&auto=format&fit=crop");
    ("images", VList [
      VStr "https://images.unsplash.com/photo-1516570161787-2fd917215a3d?q=80&w=1200&auto=format&fit=crop";
      VStr "https://images.unsplash.com/photo-1524805444758-089113d48a6d?q=80&w=1200&auto=format&fit=crop"]);
    ("in_stock", VBool true)];
  py_dict [
    ("title", VStr "AquaSport 300");
    ("description", VStr "Professional diver with ceramic bezel and 300m WR.");
    ("price", VFloat 899.0);
    ("brand", VStr "Pelagos");
    ("collection", VStr "sport");
    ("image", VStr "https://images.unsplash.com/photo-1518546305927-5a555bb7020d?q=80&w=1200&auto=format&fit=crop");
    ("images", VList [
      VStr "https://images.unsplash.com/photo-1518546305927-5a555bb7020d?q=80&w=1200&auto=format&fit=crop";
      VStr "https://images.unsplash.com/photo-1483721310020-03333e577078?q=80&w=1200&auto=format&fit=crop"]);
    ("in_stock", VBool true)]
].

(** [POST /seed] *)
Definition seed_watches : Handler value := with_db (
  count ← pymongo.count_documents "watch" [];
  if 0 <? count then
    mret (VDict (py_dict [("inserted", VInt 0); ("message", VStr "Already seeded")]))
  else
    _ ← for_each sample (λ doc, _ ← create_document "watch" doc; mret ());
    mret (VDict (py_dict [("inserted", VInt (Z.of_nat (length sample)))]))).

(** [GET /watches] *)
Definition list_watches (collection brand q : option string) : Handler value := with_db (
  let filter_obj : query := [] in
  let filter_obj :=
    match truthy_str collection with
    | Some collection => (filter_obj ++ [("collection", Eq_str collection)])%list
    | None => filter_obj
    end in
  let filter_obj :=
    match truthy_str brand with
    | Some brand => (filter_obj ++ [("brand", Eq_str brand)])%list
    | None => filter_obj
    end in
  let filter_obj :=
    match truthy_str q with
    | Some q => (filter_obj ++ [("title", Regex_cond q "i")])%list
    | None => filter_obj
    end in
  docs ← get_documents "watch" filter_obj;
  docs ← lift (rename_ids docs);
  mret (VDict (py_dict [("items", VList (VDict <$> docs))]))).

(** [GET /watches/{watch_id}] *)
Definition get_watch (watch_id : string) : Handler value := with_db (
  try_except
    (o ← lift (Oid.parse watch_id);
     doc ← pymongo.find_one "watch" [("_id", Eq_oid o)];
     match truthy_doc doc with
     | None => raise (HTTPException 404 "Watch not found")
     | Some doc => doc ← lift (rename_id doc); mret (VDict doc)
     end)
    (λ _, raise (HTTPException 400 "Invalid ID"))).

(** The request body of [POST /cart/add]. *)
Module AddToCartIn.
Record t : Type := Make { cart_id : string; product_id : string; quantity : Z }.

(** Validation of a JSON body: [quantity: int = 1]. *)
Definition validate (cart_id product_id : string) (quantity : option Z) : t :=
  Make cart_id product_id (default 1 quantity).
End AddToCartIn.

(** [POST /cart/add] *)
Definition add_to_cart (payload : AddToCartIn.t) : Handler value := with_db (
  o ← lift (Oid.parse (AddToCartIn.product_id payload));
  product ← pymongo.find_one "watch" [("_id", Eq_oid o)];
  match truthy_doc product with
  | None => raise (HTTPException 404 "Product not found")
  | Some product =>
      price ← lift (Num.py_float (dict_get "price" (VInt 0) product));
      let doc := py_dict [
        ("cart_id", VStr (AddToCartIn.cart_id payload));
        ("product_id", VStr (AddToCartIn.product_id payload));
        ("quantity", VInt (AddToCartIn.quantity payload));
        ("price_snapshot", price);
        ("title_snapshot", dict_get "title" VNone product);
        ("image_snapshot", dict_get "image" VNone product)] in
      _ ← create_document "cartitem" doc;
      mret (VDict (py_dict [("status", VStr "ok")]))
  end).

(** [i.get("price_snapshot", 0) * i.get("quantity", 1)] *)
Definition line_total (i : dict) : result value :=
  Num.py_mul (dict_get "price_snapshot" (VInt 0) i) (dict_get "quantity" (VInt 1) i).

(** [GET /cart/{cart_id}] *)
Definition get_cart (cart_id : string) : Handler value := with_db (
  items ← get_documents "cartitem" [("cart_id", Eq_str cart_id)];
  items ← lift (rename_ids items);
  total ← lift (Num.py_sum line_total items);
  total ← lift (Num.py_round2 total);
  mret (VDict (py_dict [("items", VList (VDict <$> items)); ("total", total)]))).

(** The request body of [POST /checkout]. *)
Module CheckoutIn.
Record t : Type := Make { cart_id : string; email : option string }.
End CheckoutIn.

(** [POST /checkout] *)
Definition checkout (payload : CheckoutIn.t) : Handler value := with_db (
  cart_items ← pymongo.find "cartitem" [("cart_id", Eq_str (CheckoutIn.cart_id payload))];
  match cart_items with
  | [] => raise (HTTPException 400 "Cart is empty")
  | _ :: _ =>
      cart_items ← lift (rename_ids cart_items);
      subtotal ← lift (Num.py_sum line_total cart_items);
      subtotal ← lift (Num.py_float subtotal);
      subtotal ← lift (Num.py_round2 subtotal);
      let order_doc := py_dict [
        ("cart_id", VStr (CheckoutIn.cart_id payload));
        ("items", VList (VDict <$> cart_items));
        ("subtotal", subtotal);
        ("status", VStr "paid");
        ("email", of_optional (CheckoutIn.email payload))] in
      order_id ← create_document "order" order_doc;
      mret (VDict (py_dict [("status", VStr "paid"); ("order_id", VStr order_id)]))
  end).

(** The store of a fresh deployment. *)
Definition empty_db : Database := {| collections := ∅; next_oid := 0%N |}.

(** ** Reading the store *)

(** What a client sees of a stored document: [_id] is replaced by the
    string field [id]. *)
Definition shaped (doc : document) : dict :=
  <["id" := VStr (Oid.str (_id doc))]> (delete "_id" (fields doc)).

(** The documents of a collection that a compiled query selects. *)
Definition select (tests : list (string * test)) (docs : list document) : list document :=
  List.filter (λ doc, matches tests (to_dict doc)) docs.

(** The stored items of a cart. *)
Definition cart_docs (d : Database) (cart_id : string) : list document :=
  select [("cart_id", Test_str cart_id)] (db_collection d "cartitem").

(** The store after one document was appended to a collection. *)
Definition inserted (d : Database) (name : string) (data : dict) : Database :=
  {| collections :=
       <[name := (db_collection d name ++ [Document (next_oid d) data])%list]> (collections d);
     next_oid := N.succ (next_oid d) |}.

(** ** Rounding to two decimals, as the specification words it *)

(** [n] is the integer nearest to [m * 2^e], the even one of the two when
    [m * 2^e] lies half-way between them. *)
Definition nearest_integer (m e n : Z) : Prop :=
  if 0 <=? e then n = m * 2 ^ e
  else
    let k := 2 ^ (- e) in
    2 * Z.abs (m - n * k) ≤ k
    ∧ (2 * Z.abs (m - n * k) = k → Z.even n = true).

(** The float nearest to [n] hundredths, of sign [s]: the IEEE quotient of
    the integers [n] and 100. *)
Definition hundredths (s : bool) (n : Z) : spec_float :=
  match n with
  | Z.pos p => SFdiv prec emax (S754_finite s p 0) (S754_finite false 100 0)
  | _ => S754_zero s
  end.

(** [r] is [x] rounded to two decimals: the float nearest to the decimal
    [n / 100], where [n] is the integer nearest to a hundred times the exact
    value of [x]; a zero, an infinity and NaN are kept. *)
Definition two_decimals (x r : float) : Prop :=
  match Prim2SF x with
  | S754_finite s m e =>
      ∃ n : Z, nearest_integer (100 * Z.pos m) e n ∧ r = SF2Prim (hundredths s n)
  | _ => r = x
  end.

(** ** Carts *)

(** The amount of a cart item typed as the [CartItem] schema types it: a
    float [price_snapshot] times an integer [quantity]. *)
Definition line_amount (i : dict) : option float :=
  match i !! "price_snapshot", i !! "quantity" with
  | Some (VFloat p), Some (VInt q) =>
      match Num.int_to_float q with
      | Return fq => Some (p * fq)%float
      | Raise _ => None
      end
  | _, _ => None
  end.

(** The sum of the amounts, rounded to two decimals. *)
Definition rounded_sum (amounts : list float) : float :=
  Num.float_round2 (fold_left PrimFloat.add amounts 0%float).

(** The total of a cart as a value: the sum of no amount is the integer 0. *)
Definition total_value (amounts : list float) : value :=
  match amounts with
  | [] => VInt 0
  | _ :: _ => VFloat (rounded_sum amounts)
  end.

(** What [get_cart] answers for the items it read. *)
Definition cart_response (items : list dict) : result value :=
  total ← Num.py_sum line_total items;
  total ← Num.py_round2 total;
  Return (VDict (py_dict [("items", VList (VDict <$> items)); ("total", total)])).

(** The order [checkout] builds from the items it read. *)
Definition order_doc (payload : CheckoutIn.t) (items : list dict) : result dict :=
  subtotal ← Num.py_sum line_total items;
  subtotal ← Num.py_float subtotal;
  subtotal ← Num.py_round2 subtotal;
  Return (py_dict [
    ("cart_id", VStr (CheckoutIn.cart_id payload));
    ("items", VList (VDict <$> items));
    ("subtotal", subtotal);
    ("status", VStr "paid");
    ("email", of_optional (CheckoutIn.email payload))]).

(** The order of a cart whose amounts are known. *)
Definition paid_order (payload : CheckoutIn.t) (items : list dict) (amounts : list float) : dict :=
  py_dict [
    ("cart_id", VStr (CheckoutIn.cart_id payload));
    ("items", VList (VDict <$> items));
    ("subtotal", VFloat (rounded_sum amounts));
    ("status", VStr "paid");
    ("email", of_optional (CheckoutIn.email payload))].

(** The cart item [add_to_cart] stores for a product. *)
Definition cart_item (payload : AddToCartIn.t) (product : dict) (price : value) : dict :=
  py_dict [
    ("cart_id", VStr (AddToCartIn.cart_id payload));
    ("product_id", VStr (AddToCartIn.product_id payload));
    ("quantity", VInt (AddToCartIn.quantity payload));
    ("price_snapshot", price);
    ("title_snapshot", dict_get "title" VNone product);
    ("image_snapshot", dict_get "image" VNone product)].

(** The watch stored under an identifier, if any. *)
Definition watch_by_id (d : Database) (o : ObjectId) : option document :=
  head (select [("_id", Test_oid o)] (db_collection d "watch")).

(** ** Seeding *)

(** The store after the three sample watches were appended. *)
Definition seeded (d : Database) : Database :=
  fold_left (λ d doc, inserted d "watch" doc) sample d.

(** The store after [n] calls of [POST /seed] in a row. *)
Fixpoint seed_n (n : nat) (db : option Database) : option Database :=
  match n with
  | O => db
  | S n' => seed_n n' (seed_watches db).2
  end.

Definition watch_count (db : option Database) : option nat :=
  (λ d, length (db_collection d "watch")) <$> db.

(** The catalogue of a fresh deployment after seeding. *)
Definition seeded_db : Database := seeded empty_db.

(** The seeded catalogue with one cart, ["c1"], holding two ChronoMaster
    Pro. *)
Definition demo_cart : Database :=
  default empty_db
    (add_to_cart (AddToCartIn.validate "c1" "000000000000000000000000" (Some 2))
       (Some seeded_db)).2.

(** A catalogue of one watch priced 0.125, and the cart ["c2"] holding
    three of it: their amount, 0.375, lies half-way between 0.37 and
    0.38. *)
Definition eighth_db : Database :=
  inserted empty_db "watch" (py_dict [("title", VStr "Eighth"); ("price", VFloat 0.125)]).

Definition eighth_cart : Database :=
  default empty_db
    (add_to_cart (AddToCartIn.validate "c2" "000000000000000000000000" (Some 3))
       (Some eighth_db)).2.

(** ** Searching titles *)

Fixpoint lower_string (s : string) : string :=
  match s with
  | EmptyString => EmptyString
  | String c s' => String (Regex.lower c) (lower_string s')
  end.

(** [p] occurs in [t]. *)
Fixpoint substringb (p t : string) : bool :=
  String.prefix p t
  || match t with
     | EmptyString => false
     | String _ t' => substringb p t'
     end.

(** [q] occurs in [t], letter case apart. *)
Definition ci_substringb (q t : string) : bool :=
  substringb (lower_string q) (lower_string t).

(** A pattern without metacharacters. *)
Definition plain_pattern (q : string) : bool :=
  forallb Regex.is_plain (list_ascii_of_string q).

(** A property of strings holds of a field: of its string, or of a string
    of its array. *)
Definition field_holds (P : string → bool) (fld : option value) : bool :=
  match fld with
  | Some (VStr t) => P t
  | Some (VList l) => existsb (λ v, match v with VStr t => P t | _ => false end) l
  | _ => false
  end.

Definition title_contains (q : string) (doc : document) : bool :=
  field_holds (ci_substringb q) (fields doc !! "title").

(** The exact-match filter of an optional query parameter on a field. *)
Definition param_matches (param : option string) (k : string) (doc : document) : bool :=
  match truthy_str param with
  | Some s => field_holds (λ t, String.eqb t s) (fields doc !! k)
  | None => true
  end.

(** The watches [GET /watches] keeps: exact match on [collection] and on
    [brand] when given, and the search of [q] in the title. *)
Definition watch_filter (collection brand : option string) (q : string)
    (doc : document) : bool :=
  param_matches collection "collection" doc
  && param_matches brand "brand" doc
  && title_contains q doc.

(** What [list_watches] answers for the documents it read. *)
Definition items_response (docs : list document) : value :=
  VDict (py_dict [("items", VList (VDict <$> (shaped <$> docs)))]).

(** The titles in an answer of [list_watches]. *)
Definition titles_of (r : result value) : option (list (option value)) :=
  match r with
  | Return (VDict resp) =>
      match resp !! "items" with
      | Some (VList items) =>
          Some ((λ i, match i with VDict i => i !! "title" | _ => None end) <$> items)
      | _ => None
      end
  | _ => None
  end.

(** ** The API as a whole *)

Inductive request : Type :=
| Seed
| ListWatches (collection brand q : option string)
| GetWatch (watch_id : string)
| AddToCart (payload : AddToCartIn.t)
| GetCart (cart_id : string)
| Checkout (payload : CheckoutIn.t).

Definition handle (r : request) : Handler value :=
  match r with
  | Seed => seed_watches
  | ListWatches collection brand q => list_watches collection brand q
  | GetWatch watch_id => get_watch watch_id
  | AddToCart payload => add_to_cart payload
  | GetCart cart_id => get_cart cart_id
  | Checkout payload => checkout payload
  end.

(** The store after a sequence of requests. *)
Fixpoint serve (rs : list request) (db : option Database) : option Database :=
  match rs with
  | [] => db
  | r :: rs' => serve rs' (handle r db).2
  end.

(** The integers the store holds are 64-bit. *)
Definition int64 (z : Z) : Prop := - 2 ^ 63 ≤ z < 2 ^ 63.

(** A request whose integers the store can hold. *)
Definition storable (r : request) : Prop :=
  match r with
  | AddToCart payload => int64 (AddToCartIn.quantity payload)
  | _ => True
  end.

(** Every cart item of the store is typed as the [CartItem] schema types
    it. *)
Definition typed_carts (d : Database) : Prop :=
  Forall (λ doc, is_Some (line_amount (fields doc))) (db_collection d "cartitem").

(** ** The diagnostic endpoint *)

Module diagnostics.

(** What [db.list_collection_names()] does: it returns the names or raises
    an exception, kept as its [str()]. *)
Inductive listing : Type :=
| Listed (names : list string)
| Listing_raises (message : string).

(** A step of [test_database]: it raises an exception, kept as its [str()],
    or returns, and leaves the [response] under construction. *)
Definition Step (A : Type) : Type := dict → (string + A) * dict.

#[global] Instance Step_ret : MRet Step := λ A a response, (inr a, response).
#[global] Instance Step_bind : MBind Step := λ A B f m response,
  match m response with
  | (inr a, response') => f a response'
  | (inl message, response') => (inl message, response')
  end.

(** [response[k] = v] *)
Definition set_item (k : string) (v : value) : Step () :=
  λ response, (inr (), <[k := v]> response).

(** [try: body / except Exception as e: handler(str(e))]: what [body]
    assigned before it raised stays assigned. *)
Definition try_except_as {A : Type} (body : Step A) (handler : string → Step A) : Step A :=
  λ response,
    match body response with
    | (inr a, response') => (inr a, response')
    | (inl message, response') => handler message response'
    end.

(** [s[:50]], for a message of ASCII characters (the marks of the literals
    below are kept as the bytes of their UTF-8 encoding). *)
Definition first_50 (s : string) : string := String.substring 0 50 s.

(** Truth value of [os.getenv(k)]: the variable is set and not empty. *)
Definition getenv_truthy (environ : gmap string string) (k : string) : bool :=
  match environ !! k with
  | Some v => negb (String.eqb v "")
  | None => false
  end.

(** [GET /test], for the environment of the process and the behaviour of
    [list_collection_names] on the store. *)
Definition test_database (environ : gmap string string)
    (list_collection_names : Database → listing) (db : option Database) : value :=
  let response := py_dict [
    ("backend", VStr "✅ Running");
    ("database", VStr "❌ Not Available");
    ("database_url", VNone);
    ("database_name", VNone);
    ("connection_status", VStr "Not Connected");
    ("collections", VList [])] in
  let body : Step () :=
    try_except_as
      (match db with
       | Some d =>
           _ ← set_item "database" (VStr "✅ Connected & Working");
           _ ← set_item "database_url"
                 (VStr (if getenv_truthy environ "DATABASE_URL" then "✅ Set" else "❌ Not Set"));
           _ ← set_item "database_name"
                 (VStr (if getenv_truthy environ "DATABASE_NAME" then "✅ Set" else "❌ Not Set"));
           try_except_as
             (collections ← (λ response,
                               match list_collection_names d with
                               | Listed names => (inr names, response)
                               | Listing_raises message => (inl message, response)
                               end);
              set_item "collections" (VList (VStr <$> take 10 collections)))
             (λ e, set_item "database" (VStr ("⚠️  Connected but Error: " ++ first_50 e)))
       | None => set_item "database" (VStr "❌ Database not initialized")
       end)
      (λ e, set_item "database" (VStr ("❌ Error: " ++ first_50 e))) in
  VDict (body response).2.

End diagnostics.

(** ** The schemas of [schemas.py] *)

Module schemas.

(** A field declared [str]. *)
Definition is_str (v : option value) : bool :=
  match v with
  | Some (VStr _) => true
  | _ => false
  end.

(** A field declared [Optional[str]] with the default [None]. *)
Definition is_optional_str (v : option value) : bool :=
  match v with
  | None | Some VNone | Some (VStr _) => true
  | _ => false
  end.

(** A field declared [float] with [ge=0]: a float, or an integer, not below
    zero (a NaN is below every bound). *)
Definition is_float_ge_0 (v : option value) : bool :=
  match v with
  | Some (VFloat p) => (0 <=? p)%float
  | Some (VInt p) => 0 <=? p
  | _ => false
  end.

(** [class CartItem]: the document has the declared fields with the declared
    types, as they are, within the declared bounds
    ([quantity: int = Field(1, ge=1)],
    [price_snapshot: float = Field(..., ge=0)]). *)
Definition CartItem (i : dict) : bool :=
  is_str (i !! "cart_id")
  && is_str (i !! "product_id")
  && match i !! "quantity" with
     | None => true
     | Some (VInt q) => 1 <=? q
     | _ => false
     end
  && is_float_ge_0 (i !! "price_snapshot")
  && is_optional_str (i !! "title_snapshot")
  && is_optional_str (i !! "image_snapshot").

End schemas.

(** ** Answers *)

(** A field of an answer. *)
Definition field_of (answer : value) (k : string) : option value :=
  match answer with
  | VDict response => response !! k
  | _ => None
  end.

(** The requests that only read. *)
Definition is_read (r : request) : bool :=
  match r with
  | ListWatches _ _ _ | GetWatch _ | GetCart _ => true
  | _ => false
  end.

(** ** What requests do to the store *)

(** The store after a request: as before, or with one cart item appended, or
    with one order appended, or seeded. *)
Inductive effect (d : Database) : Database → Prop :=
| effect_none : effect d d
| effect_cart item : effect d (inserted d "cartitem" item)
| effect_order order : effect d (inserted d "order" order)
| effect_seed : db_collection d "watch" = [] → effect d (seeded d).


(** The catalogue is empty or holds the samples. *)
Definition catalogue_ok (d : Database) : Prop :=
  fields <$> db_collection d "watch" = [] ∨ fields <$> db_collection d "watch" = sample.

(** A returned document has no [_id] and has a string [id] of 24
    characters. *)
Definition shaped_value (v : value) : Prop :=
  ∃ i, v = VDict i
       ∧ i !! "_id" = None
       ∧ ∃ s, i !! "id" = Some (VStr s) ∧ String.length s = 24%nat.

(** * Proofs *)

(** ** The arithmetic of the interpreter, on known values *)

(** [round(2.675, 2) == 2.67]: the float nearest to 2.675 lies below it. *)
Example float_round2_below :
  Num.float_round2 0x1.5666666666666p+1 = 0x1.55c28f5c28f5cp+1%float.
Proof. vm_compute. reflexivity. Qed.

(** [round(0.125, 2) == 0.12] and [round(0.375, 2) == 0.38]: ties go to the
    even digit. *)
Example float_round2_ties :
  Num.float_round2 0.125 = 0x1.eb851eb851eb8p-4%float
  ∧ Num.float_round2 0.375 = 0x1.851eb851eb852p-2%float.
Proof. split; vm_compute; reflexivity. Qed.

(** [round(-0.001, 2) == -0.0] and [round(1e300, 2) == 1e300]. *)
Example float_round2_extremes :
  Num.float_round2 (-0x1.0624dd2f1a9fcp-10) = (-0)%float
  ∧ Num.float_round2 0x1.7e43c8800759cp+996 = 0x1.7e43c8800759cp+996%float.
Proof. split; vm_compute; reflexivity. Qed.

(** [float(2**53 + 1) == 2.0**53], and [float(2**1024 - 2**970)] overflows
    while the integer before it is the largest float. *)
Example int_to_float_rounds :
  Num.int_to_float (2 ^ 53 + 1) = Return 0x1p+53%float
  ∧ Num.int_to_float (2 ^ 1024 - 2 ^ 970) = Raise OverflowError
  ∧ Num.int_to_float (2 ^ 1024 - 2 ^ 970 - 1) = Return 0x1.fffffffffffffp+1023%float.
Proof. repeat split; vm_compute; reflexivity. Qed.

(** [sum(x for x in [True, 2, 0.5]) == 3.5] and [sum(x for x in []) == 0]. *)
Example py_sum_tower :
  Num.py_sum Return [VBool true; VInt 2; VFloat 0.5] = Return (VFloat 3.5)
  ∧ Num.py_sum Return [] = Return (VInt 0)
  ∧ Num.py_sum Return [VInt 1; VStr "a"] = Raise TypeError.
Proof. repeat split; vm_compute; reflexivity. Qed.

Example oid_parse_str :
  Oid.parse "0000000000000000000000fF" = Return 255%N
  ∧ Oid.str 255%N = "0000000000000000000000ff"
  ∧ Oid.parse "abc" = Raise InvalidId
  ∧ Oid.parse "00000000000000000000000g" = Raise InvalidId.
Proof. repeat split; reflexivity. Qed.

(** [ObjectId("00 00 00 00 00 00 00 00 ")] is an identifier of 8 bytes, and
    white space inside a byte is refused. *)
Example oid_parse_blanks :
  Oid.parse "00 00 00 00 00 00 00 00 " = Return (Oid.of_bytes 0 8)
  ∧ (2 ^ 96 ≤ Oid.of_bytes 0 8)%N
  ∧ Oid.parse "0 0000000000000000000000" = Raise InvalidId
  ∧ Oid.parse "0000000000000000000000 0" = Raise InvalidId.
Proof. repeat split; try reflexivity. vm_compute. discriminate. Qed.

Example regex_compile :
  Regex.compile "a.c" = Some [Regex.Lit "a"; Regex.AnyChar; Regex.Lit "c"]
  ∧ Regex.compile "a\.c" = Some [Regex.Lit "a"; Regex.Lit "."; Regex.Lit "c"]
  ∧ Regex.compile "a*" = None.
Proof. repeat split; reflexivity. Qed.

(** ** Running computations *)

Lemma ret_bind {A B : Type} (a : A) (k : A → result B) : Return a ≫= k = k a.
Proof. done. Qed.

Lemma lift_bind_run {A B : Type} (r : result A) (k : A → App B) d :
  (lift r ≫= k) d = match r with Return a => k a d | Raise e => (Raise e, d) end.
Proof. by destruct r. Qed.

(** Every endpoint that needs the store answers 500 without it. *)
Lemma with_db_unavailable {A : Type} (body : App A) :
  with_db body None = (Raise (HTTPException 500 "Database not available"), None).
Proof. done. Qed.

(** ** Documents and queries *)

Lemma to_dict_id doc : to_dict doc !! "_id" = Some (VOid (_id doc)).
Proof. unfold to_dict. apply lookup_insert_eq. Qed.

Lemma to_dict_lookup doc k : k ≠ "_id" → to_dict doc !! k = fields doc !! k.
Proof. intros Hk. unfold to_dict. by rewrite lookup_insert_ne. Qed.

Lemma shaped_lookup doc k :
  k ≠ "id" → k ≠ "_id" → shaped doc !! k = fields doc !! k.
Proof.
  intros H1 H2. unfold shaped.
  rewrite lookup_insert_ne by done. by rewrite lookup_delete_ne.
Qed.

Lemma rename_id_to_dict doc : rename_id (to_dict doc) = Return (shaped doc).
Proof.
  unfold rename_id, dict_pop. rewrite to_dict_id. cbn.
  unfold shaped, to_dict. by rewrite delete_insert_eq.
Qed.

Lemma rename_ids_to_dict docs :
  rename_ids (to_dict <$> docs) = Return (shaped <$> docs).
Proof.
  induction docs as [|doc docs IH]; [done|].
  cbn. rewrite rename_id_to_dict. cbn. rewrite IH. done.
Qed.

Lemma filter_to_dict tests docs :
  List.filter (matches tests) (to_dict <$> docs) = to_dict <$> select tests docs.
Proof.
  unfold select. induction docs as [|doc docs IH]; [done|].
  cbn. destruct (matches tests (to_dict doc)); cbn; by rewrite IH.
Qed.

Lemma select_all docs : select [] docs = docs.
Proof.
  unfold select, matches. simpl.
  induction docs as [|doc docs IH]; simpl; [done|by f_equal].
Qed.

Lemma select_app tests docs1 docs2 :
  select tests (docs1 ++ docs2)%list = (select tests docs1 ++ select tests docs2)%list.
Proof. unfold select. apply List.filter_app. Qed.

Lemma truthy_to_dict doc : truthy_doc (Some (to_dict doc)) = Some (to_dict doc).
Proof.
  unfold truthy_doc. case_bool_decide as H; [|done].
  exfalso. unfold to_dict in H. rewrite dom_insert_L in H. set_solver.
Qed.

(** Running a query leaves the store as it is. *)
Lemma find_run name q d :
  pymongo.find name q d =
    (tests ← compile_query q; Return (to_dict <$> select tests (db_collection d name)), d).
Proof.
  unfold pymongo.find. destruct (compile_query q); cbn; [|done].
  by rewrite filter_to_dict.
Qed.

(** The first step of a handler that starts with a query. *)
Ltac run_find := unfold mbind at 1; unfold App_bind; rewrite find_run.

(** ** Writing to the store *)

Lemma inserted_same d name data :
  db_collection (inserted d name data) name =
    (db_collection d name ++ [Document (next_oid d) data])%list.
Proof. unfold db_collection at 1, inserted. cbn. by rewrite lookup_insert_eq. Qed.

Lemma inserted_other d name data name' :
  name' ≠ name → db_collection (inserted d name data) name' = db_collection d name'.
Proof.
  intros H. unfold db_collection at 1, inserted. cbn.
  by rewrite lookup_insert_ne.
Qed.

Lemma inserted_next d name data :
  next_oid (inserted d name data) = N.succ (next_oid d).
Proof. done. Qed.

Create Rewrite HintDb store.
#[global] Hint Rewrite inserted_same inserted_next : store.

(** ** The cart endpoints, step by step *)

Lemma get_cart_run d cart_id :
  get_cart cart_id (Some d) = (cart_response (shaped <$> cart_docs d cart_id), Some d).
Proof.
  unfold get_cart, with_db, get_documents, cart_response.
  run_find. cbn.
  rewrite lift_bind_run, rename_ids_to_dict, lift_bind_run.
  fold (cart_docs d cart_id).
  destruct (Num.py_sum _ _) as [total|e]; cbn; [|done].
  rewrite lift_bind_run. by destruct (Num.py_round2 total).
Qed.

Section Checkout.

Variable d : Database.
Variable payload : CheckoutIn.t.

Lemma checkout_find :
  checkout payload (Some d) =
    (let '(r, d') :=
       match to_dict <$> cart_docs d (CheckoutIn.cart_id payload) with
       | [] => raise (HTTPException 400 "Cart is empty")
       | _ :: _ =>
           (o ← lift (order_doc payload (shaped <$> cart_docs d (CheckoutIn.cart_id payload)));
            order_id ← create_document "order" o;
            mret (VDict (py_dict [("status", VStr "paid"); ("order_id", VStr order_id)])))
       end d in (r, Some d')).
Proof.
  unfold checkout, with_db. run_find.
  change (compile_query _) with
    (Return [("cart_id", Test_str (CheckoutIn.cart_id payload))]).
  rewrite ret_bind. fold (cart_docs d (CheckoutIn.cart_id payload)).
  destruct (to_dict <$> cart_docs d _) as [|x l] eqn:Hl; [done|].
  rewrite <- Hl. f_equal.
  rewrite !lift_bind_run, rename_ids_to_dict. unfold order_doc.
  destruct (Num.py_sum _ _) as [s|e]; [|done].
  rewrite ret_bind.
  rewrite lift_bind_run. destruct (Num.py_float s) as [s'|e]; [|done].
  rewrite ret_bind.
  rewrite lift_bind_run. destruct (Num.py_round2 s') as [s''|e]; [|done].
  done.
Qed.

Lemma checkout_empty :
  cart_docs d (CheckoutIn.cart_id payload) = [] →
  checkout payload (Some d) = (Raise (HTTPException 400 "Cart is empty"), Some d).
Proof. intros H. rewrite checkout_find, H. done. Qed.

Lemma checkout_nonempty :
  cart_docs d (CheckoutIn.cart_id payload) ≠ [] →
  checkout payload (Some d) =
    match order_doc payload (shaped <$> cart_docs d (CheckoutIn.cart_id payload)) with
    | Return o =>
        (Return (VDict (py_dict [("status", VStr "paid");
                                 ("order_id", VStr (Oid.str (next_oid d)))])),
         Some (inserted d "order" o))
    | Raise e => (Raise e, Some d)
    end.
Proof.
  intros H. rewrite checkout_find.
  destruct (cart_docs d _) as [|doc docs]; [done|].
  rewrite fmap_cons, lift_bind_run.
  by destruct (order_doc _ _).
Qed.

End Checkout.

(** ** Arithmetic on typed cart items *)

Lemma line_total_amount i x :
  line_amount i = Some x → line_total i = Return (VFloat x).
Proof.
  unfold line_amount, line_total, dict_get.
  destruct (i !! "price_snapshot") as [[]|]; try done.
  destruct (i !! "quantity") as [[]|]; try done.
  cbn. unfold Num.py_mul, Num.binop. cbn.
  destruct (Num.int_to_float z); [|done].
  intros [= <-]. done.
Qed.

Lemma sum_from_amounts items amounts acc :
  mapM line_amount items = Some amounts →
  Num.sum_from line_total items (VFloat acc) =
    Return (VFloat (fold_left PrimFloat.add amounts acc)).
Proof.
  revert amounts acc. induction items as [|i items IH]; intros amounts acc H.
  - cbn in H. by injection H as <-.
  - rewrite mapM_Some in H. inversion H as [|? x ? amounts' Hx Hrest]; subst.
    cbn. rewrite (line_total_amount _ _ Hx). cbn.
    apply IH. by apply mapM_Some.
Qed.

Lemma py_sum_amounts items amounts :
  mapM line_amount items = Some amounts →
  Num.py_sum line_total items =
    Return match amounts with
           | [] => VInt 0
           | _ :: _ => VFloat (fold_left PrimFloat.add amounts 0%float)
           end.
Proof.
  intros H. unfold Num.py_sum. destruct items as [|i items].
  - cbn in H. by injection H as <-.
  - rewrite mapM_Some in H. inversion H as [|? x ? amounts' Hx Hrest]; subst.
    cbn. rewrite (line_total_amount _ _ Hx). cbn.
    apply sum_from_amounts. by apply mapM_Some.
Qed.

(** Every integer of the store's 64-bit range converts to a float, so an
    item with a float price and such a quantity has an amount. *)
Lemma int_to_float_int64 z :
  - 2 ^ 63 ≤ z < 2 ^ 63 →
  Num.int_to_float z = Return (SF2Prim (binary_normalize prec emax z 0 false)).
Proof.
  intros Hz. unfold Num.int_to_float.
  assert (Hb : 2 ^ 63 < 2 ^ 1024 - 2 ^ 970) by (vm_compute; reflexivity).
  destruct (Z.ltb_spec (Z.abs z) (2 ^ 1024 - 2 ^ 970)) as [_|Hge]; [done|].
  exfalso. revert Hb Hge Hz.
  generalize (2 ^ 1024 - 2 ^ 970). generalize (2 ^ 63). lia.
Qed.

Lemma line_amount_typed i p q :
  i !! "price_snapshot" = Some (VFloat p) →
  i !! "quantity" = Some (VInt q) →
  - 2 ^ 63 ≤ q < 2 ^ 63 →
  is_Some (line_amount i).
Proof.
  intros Hp Hq Hrange. unfold line_amount.
  rewrite Hp, Hq, (int_to_float_int64 q Hrange). by eexists.
Qed.

Lemma py_float_is_float v x :
  Num.py_float v = Return x → ∃ f, x = VFloat f.
Proof.
  unfold Num.py_float. destruct v; try discriminate; cbn.
  - destruct (Num.int_to_float _); cbn; [|discriminate]. intros [= <-]. by eexists.
  - destruct (Num.int_to_float _); cbn; [|discriminate]. intros [= <-]. by eexists.
  - intros [= <-]. by eexists.
Qed.

(** What the two cart endpoints compute from items whose amounts are
    known. *)
Section TypedItems.

Variable items : list dict.
Variable amounts : list float.
Hypothesis typed : mapM line_amount items = Some amounts.

Lemma cart_response_amounts :
  cart_response items =
    Return (VDict (py_dict [("items", VList (VDict <$> items));
                            ("total", total_value amounts)])).
Proof.
  unfold cart_response. rewrite (py_sum_amounts _ _ typed), ret_bind.
  by destruct amounts.
Qed.

Lemma order_doc_amounts payload :
  items ≠ [] →
  order_doc payload items = Return (paid_order payload items amounts).
Proof.
  intros Hne. unfold order_doc. rewrite (py_sum_amounts _ _ typed), ret_bind.
  pose proof typed as H. apply mapM_Some, Forall2_length in H.
  destruct amounts as [|x rest]; [|done].
  by destruct items.
Qed.

End TypedItems.

(** ** Rounding *)

Lemma round_half_even_nearest m e : nearest_integer m e (Num.round_half_even m e).
Proof.
  unfold nearest_integer, Num.round_half_even.
  destruct (0 <=? e) eqn:He; [done|].
  apply Z.leb_gt in He.
  assert (Hk : 0 < 2 ^ (- e)) by (apply Z.pow_pos_nonneg; lia).
  cbv zeta. generalize dependent (2 ^ (- e)). intros k Hk.
  pose proof (Z.div_mod m k ltac:(lia)) as Hdm.
  pose proof (Z.mod_pos_bound m k Hk) as Hr.
  destruct (Z.compare_spec (2 * (m mod k)) k) as [Heq|Hlt|Hgt].
  - destruct (Z.even (m / k)) eqn:Hev.
    + split; [lia|done].
    + split; [lia|]. intros _. rewrite Z.add_1_r, Z.even_succ, <- Z.negb_even, Hev. done.
  - split; lia.
  - split; lia.
Qed.

Lemma nearest_integer_unique m e n n' :
  nearest_integer m e n → nearest_integer m e n' → n = n'.
Proof.
  unfold nearest_integer. destruct (0 <=? e) eqn:He; [congruence|].
  apply Z.leb_gt in He.
  assert (Hk : 0 < 2 ^ (- e)) by (apply Z.pow_pos_nonneg; lia).
  cbv zeta. generalize dependent (2 ^ (- e)). intros k Hk [H1 E1] [H2 E2].
  destruct (Z.eq_dec n n') as [|Hne]; [done|exfalso].
  assert (Hd : n' = n + 1 ∨ n = n' + 1) by nia.
  destruct Hd as [-> | ->].
  - assert (T1 : 2 * Z.abs (m - n * k) = k) by nia.
    assert (T2 : 2 * Z.abs (m - (n + 1) * k) = k) by nia.
    specialize (E1 T1). specialize (E2 T2).
    rewrite Z.add_1_r, Z.even_succ, <- Z.negb_even, E1 in E2. done.
  - assert (T1 : 2 * Z.abs (m - n' * k) = k) by nia.
    assert (T2 : 2 * Z.abs (m - (n' + 1) * k) = k) by nia.
    specialize (E1 T2). specialize (E2 T1).
    rewrite Z.add_1_r, Z.even_succ, <- Z.negb_even, E2 in E1. done.
Qed.

(** [round(x, 2)] is [x] rounded to two decimals. *)
Lemma float_round2_two_decimals x : two_decimals x (Num.float_round2 x).
Proof.
  unfold two_decimals, Num.float_round2.
  destruct (Prim2SF x) as [s| | |s m e]; try done.
  exists (Num.round_half_even (100 * Z.pos m) e).
  split; [apply round_half_even_nearest|].
  by destruct (Num.round_half_even _ _).
Qed.

(** Nothing else is. *)
Lemma two_decimals_unique x r : two_decimals x r → r = Num.float_round2 x.
Proof.
  intros H. pose proof (float_round2_two_decimals x) as H'.
  unfold two_decimals in *. destruct (Prim2SF x) as [s| | |s m e]; try congruence.
  destruct H as (n & Hn & ->). destruct H' as (n' & Hn' & ->).
  by rewrite (nearest_integer_unique _ _ _ _ Hn Hn').
Qed.

(** The rounded sum of the amounts is their sum rounded to two decimals,
    and the only float that is. *)
Lemma rounded_sum_two_decimals amounts r :
  two_decimals (fold_left PrimFloat.add amounts 0%float) r ↔ r = rounded_sum amounts.
Proof.
  split; [apply two_decimals_unique|]. intros ->. apply float_round2_two_decimals.
Qed.

(** 0.375 rounds to 0.38 and to nothing else: 37.5 lies half-way between
    37 and 38, and 38 is even. *)
Example two_decimals_tie r :
  two_decimals 0.375 r ↔ r = 0x1.851eb851eb852p-2%float.
Proof.
  split.
  - intros H. rewrite (two_decimals_unique _ _ H). vm_compute. reflexivity.
  - intros ->. replace 0x1.851eb851eb852p-2%float with (Num.float_round2 0.375)
      by (vm_compute; reflexivity).
    apply float_round2_two_decimals.
Qed.

(** ** The cart endpoints *)

(** C3: checkout of a cart without items raises the empty-cart error
    (status 400) and leaves the store, hence the order collection, as it
    was. *)
Theorem checkout_empty_cart (d : Database) (payload : CheckoutIn.t) :
  cart_docs d (CheckoutIn.cart_id payload) = [] →
  checkout payload (Some d) = (Raise (HTTPException 400 "Cart is empty"), Some d).
Proof. apply checkout_empty. Qed.

Lemma checkout_empty_cart_witness :
  cart_docs seeded_db "nobody" = []
  ∧ checkout (CheckoutIn.Make "nobody" None) (Some seeded_db) =
      (Raise (HTTPException 400 "Cart is empty"), Some seeded_db).
Proof.
  split; [vm_compute; reflexivity|].
  apply (checkout_empty_cart seeded_db (CheckoutIn.Make "nobody" None)).
  vm_compute; reflexivity.
Defined.

(** C5: [GET /cart/{cart_id}] computes its answer from the items it
    returns and leaves the store as it was (the total is not stored); the
    total is the sum over the returned items of price_snapshot times
    quantity, rounded to two decimals: the float nearest to the decimal of
    two fractional digits nearest to the sum, and no other float. *)
Theorem get_cart_total (d : Database) (cart_id : string) (amounts : list float) :
  let items := shaped <$> cart_docs d cart_id in
  get_cart cart_id (Some d) = (cart_response items, Some d)
  ∧ (mapM line_amount items = Some amounts →
     cart_response items =
       Return (VDict (py_dict [("items", VList (VDict <$> items));
                               ("total", total_value amounts)]))
     ∧ (amounts ≠ [] →
        ∀ r, two_decimals (fold_left PrimFloat.add amounts 0%float) r
             ↔ total_value amounts = VFloat r)).
Proof.
  intros items. split; [apply get_cart_run|].
  intros H. split; [by apply cart_response_amounts|].
  intros Hne r. rewrite rounded_sum_two_decimals.
  destruct amounts as [|x rest]; [done|]. cbn [total_value].
  split; [by intros ->|by intros [= <-]].
Qed.

(** Three watches at 0.125 in a cart: the total is 0.38. *)
Lemma get_cart_total_witness :
  mapM line_amount (shaped <$> cart_docs eighth_cart "c2") = Some [0.375%float]
  ∧ get_cart "c2" (Some eighth_cart) =
      (Return (VDict (py_dict [
         ("items", VList (VDict <$> (shaped <$> cart_docs eighth_cart "c2")));
         ("total", VFloat 0x1.851eb851eb852p-2)])),
       Some eighth_cart)
  ∧ ∀ r, two_decimals 0.375 r ↔ r = 0x1.851eb851eb852p-2%float.
Proof.
  assert (H : mapM line_amount (shaped <$> cart_docs eighth_cart "c2") = Some [0.375%float])
    by (vm_compute; reflexivity).
  split; [exact H|].
  destruct (get_cart_total eighth_cart "c2" [0.375%float]) as [Hrun Htotal].
  destruct (Htotal H) as [Hresponse Hrounded].
  assert (Hvalue : total_value [0.375%float] = VFloat 0x1.851eb851eb852p-2)
    by (vm_compute; reflexivity).
  split.
  - rewrite Hrun, Hresponse, Hvalue. reflexivity.
  - intros r. rewrite (Hrounded ltac:(discriminate) r), Hvalue.
    split; [by intros [= <-]|by intros ->].
Defined.

(** C10: for a cart without items [GET /cart/{cart_id}] succeeds with an
    empty list of items and the total 0. *)
Theorem get_cart_unknown (d : Database) (cart_id : string) :
  cart_docs d cart_id = [] →
  get_cart cart_id (Some d) =
    (Return (VDict (py_dict [("items", VList []); ("total", VInt 0)])), Some d).
Proof. intros H. rewrite get_cart_run, H. done. Qed.

Lemma get_cart_unknown_witness :
  cart_docs demo_cart "nobody" = []
  ∧ get_cart "nobody" (Some demo_cart) =
      (Return (VDict (py_dict [("items", VList []); ("total", VInt 0)])), Some demo_cart).
Proof.
  split; [vm_compute; reflexivity|].
  apply (get_cart_unknown demo_cart "nobody").
  vm_compute; reflexivity.
Defined.

(** ** Checkout *)

Lemma single_amount i amounts :
  i !! "price_snapshot" = Some (VFloat 599.0) →
  i !! "quantity" = Some (VInt 2) →
  mapM line_amount [i] = Some amounts → amounts = [1198.0%float].
Proof.
  intros Hp Hq H. cbn in H. unfold line_amount in H. rewrite Hp, Hq in H.
  vm_compute in H. by injection H as <-.
Qed.

(** C6: checkout of a cart with items appends exactly one order whose
    status is "paid" and whose subtotal is the sum over the items of
    price_snapshot times quantity, rounded to two decimals (the float
    nearest to the decimal of two fractional digits nearest to the sum, and
    no other float); a single item of price 599.0 and quantity 2 gives the
    subtotal 1198.0. *)
Theorem checkout_paid (d : Database) (payload : CheckoutIn.t) (amounts : list float) :
  let items := shaped <$> cart_docs d (CheckoutIn.cart_id payload) in
  let order := paid_order payload items amounts in
  items ≠ [] →
  mapM line_amount items = Some amounts →
  checkout payload (Some d) =
    (Return (VDict (py_dict [("status", VStr "paid");
                             ("order_id", VStr (Oid.str (next_oid d)))])),
     Some (inserted d "order" order))
  ∧ db_collection (inserted d "order" order) "order" =
      (db_collection d "order" ++ [Document (next_oid d) order])%list
  ∧ order !! "status" = Some (VStr "paid")
  ∧ order !! "subtotal" = Some (VFloat (rounded_sum amounts))
  ∧ (∀ r, two_decimals (fold_left PrimFloat.add amounts 0%float) r
          ↔ order !! "subtotal" = Some (VFloat r))
  ∧ (∀ i, items = [i] →
       i !! "price_snapshot" = Some (VFloat 599.0) →
       i !! "quantity" = Some (VInt 2) →
       order !! "subtotal" = Some (VFloat 1198.0)).
Proof.
  intros items order Hne H. split; [|split; [|split; [|split; [|split]]]].
  - rewrite checkout_nonempty.
    + fold items. by rewrite (order_doc_amounts _ _ H payload Hne).
    + intros Hnil. apply Hne. unfold items. by rewrite Hnil.
  - apply inserted_same.
  - done.
  - done.
  - intros r. rewrite rounded_sum_two_decimals.
    replace (order !! "subtotal") with (Some (VFloat (rounded_sum amounts))) by done.
    split; [by intros ->|by intros [= <-]].
  - intros i Hi Hp Hq. rewrite Hi in H.
    unfold order. rewrite (single_amount i amounts Hp Hq H). done.
Qed.

(** Checkout of three watches at 0.125 stores the subtotal 0.38, and of
    two ChronoMaster Pro the subtotal 1198.0. *)
Lemma checkout_paid_witness :
  let payload := CheckoutIn.Make "c2" (Some "a@b.c") in
  let items := shaped <$> cart_docs eighth_cart "c2" in
  let order := paid_order payload items [0.375%float] in
  let payload1 := CheckoutIn.Make "c1" None in
  let items1 := shaped <$> cart_docs demo_cart "c1" in
  let order1 := paid_order payload1 items1 [1198.0%float] in
  (checkout payload (Some eighth_cart) =
     (Return (VDict (py_dict [("status", VStr "paid");
                              ("order_id", VStr (Oid.str (next_oid eighth_cart)))])),
      Some (inserted eighth_cart "order" order))
   ∧ order !! "subtotal" = Some (VFloat 0x1.851eb851eb852p-2)
   ∧ ∀ r, two_decimals 0.375 r ↔ r = 0x1.851eb851eb852p-2%float)
  ∧ (checkout payload1 (Some demo_cart) =
       (Return (VDict (py_dict [("status", VStr "paid");
                                ("order_id", VStr (Oid.str (next_oid demo_cart)))])),
        Some (inserted demo_cart "order" order1))
     ∧ order1 !! "subtotal" = Some (VFloat 1198.0)).
Proof.
  intros payload items order payload1 items1 order1. split.
  - destruct (checkout_paid eighth_cart payload [0.375%float]) as (H1 & _ & _ & H2 & H3 & _).
    + intros H. apply (f_equal length) in H. vm_compute in H. discriminate H.
    + vm_compute. reflexivity.
    + assert (Hvalue : rounded_sum [0.375%float] = 0x1.851eb851eb852p-2%float)
        by (vm_compute; reflexivity).
      rewrite Hvalue in H2.
      split; [exact H1|]. split; [exact H2|].
      intros r. rewrite (H3 r). split.
      * intros Hr. pose proof (eq_trans (eq_sym H2) Hr) as E. by injection E.
      * by intros ->.
  - destruct (checkout_paid demo_cart payload1 [1198.0%float]) as (H1 & _ & _ & H2 & _).
    + intros H. apply (f_equal length) in H. vm_compute in H. discriminate H.
    + vm_compute. reflexivity.
    + split; [exact H1|exact H2].
Defined.

(** C7: a successful checkout appends one order and changes nothing else:
    the cartitem collection, and so the items of the cart, are the same
    before and after. *)
Theorem checkout_keeps_cart (d : Database) (payload : CheckoutIn.t)
    (r : value) (db' : option Database) :
  checkout payload (Some d) = (Return r, db') →
  ∃ order,
    db' = Some (inserted d "order" order)
    ∧ db_collection (inserted d "order" order) "cartitem" = db_collection d "cartitem"
    ∧ cart_docs (inserted d "order" order) (CheckoutIn.cart_id payload) =
        cart_docs d (CheckoutIn.cart_id payload)
    ∧ db_collection (inserted d "order" order) "order" =
        (db_collection d "order" ++ [Document (next_oid d) order])%list
    ∧ ∀ name, name ≠ "order" →
        db_collection (inserted d "order" order) name = db_collection d name.
Proof.
  intros H.
  destruct (cart_docs d (CheckoutIn.cart_id payload)) as [|doc docs] eqn:Hdocs.
  { rewrite (checkout_empty _ _ Hdocs) in H. discriminate. }
  rewrite checkout_nonempty in H by (by rewrite Hdocs).
  destruct (order_doc _ _) as [order|e]; [|discriminate].
  injection H as _ <-. exists order.
  split; [done|]. split; [by apply inserted_other|].
  split; [unfold cart_docs; by rewrite inserted_other|].
  split; [apply inserted_same|]. intros name Hname. by apply inserted_other.
Qed.

Lemma checkout_keeps_cart_witness :
  ∃ order,
    (checkout (CheckoutIn.Make "c1" None) (Some demo_cart)).2 =
      Some (inserted demo_cart "order" order)
    ∧ db_collection (inserted demo_cart "order" order) "cartitem" =
        db_collection demo_cart "cartitem".
Proof.
  destruct (checkout_keeps_cart demo_cart (CheckoutIn.Make "c1" None)
              (VDict (py_dict [("status", VStr "paid");
                               ("order_id", VStr "000000000000000000000004")]))
              (checkout (CheckoutIn.Make "c1" None) (Some demo_cart)).2)
    as (order & H1 & H2 & _).
  - vm_compute. reflexivity.
  - exists order. split; [exact H1|exact H2].
Defined.

(** ** Seeding *)

Lemma count_documents_all name d :
  pymongo.count_documents name [] d =
    (Return (Z.of_nat (length (db_collection d name))), d).
Proof.
  unfold pymongo.count_documents. run_find.
  cbn. by rewrite select_all, length_fmap.
Qed.

Lemma seed_run d :
  seed_watches (Some d) =
    if 0 <? Z.of_nat (length (db_collection d "watch")) then
      (Return (VDict (py_dict [("inserted", VInt 0); ("message", VStr "Already seeded")])),
       Some d)
    else (Return (VDict (py_dict [("inserted", VInt 3)])), Some (seeded d)).
Proof.
  unfold seed_watches, with_db. unfold mbind at 1. unfold App_bind.
  rewrite count_documents_all.
  by destruct (0 <? Z.of_nat (length (db_collection d "watch"))).
Qed.

Lemma fold_inserted name (docs : list dict) d :
  fields <$> db_collection (fold_left (λ d doc, inserted d name doc) docs d) name =
    ((fields <$> db_collection d name) ++ docs)%list.
Proof.
  revert d. induction docs as [|doc docs IH]; intros d; cbn [fold_left].
  - by rewrite app_nil_r.
  - rewrite IH, inserted_same, fmap_app, <- app_assoc. done.
Qed.

Lemma seeded_watches d :
  fields <$> db_collection (seeded d) "watch" =
    ((fields <$> db_collection d "watch") ++ sample)%list.
Proof. apply fold_inserted. Qed.

Lemma seed_again d n :
  db_collection d "watch" ≠ [] → seed_n n (Some d) = Some d.
Proof.
  intros H. induction n as [|n IH]; [done|].
  cbn [seed_n]. rewrite seed_run.
  destruct (db_collection d "watch") eqn:E; [done|]. exact IH.
Qed.

Lemma seed_first d :
  ∃ d', (seed_watches (Some d)).2 = Some d' ∧ db_collection d' "watch" ≠ [].
Proof.
  rewrite seed_run. destruct (db_collection d "watch") as [|doc docs] eqn:E.
  - exists (seeded d). split; [done|].
    intros Hnil. pose proof (seeded_watches d) as H. rewrite Hnil, E in H.
    discriminate H.
  - exists d. split; [done|]. by rewrite E.
Qed.

(** C4: [POST /seed] inserts nothing when the watch collection has a
    document and else appends exactly the three sample records; so after any
    number [n ≥ 1] of calls in a row the collection has the size it had
    after the first. *)
Theorem seed_idempotent (d : Database) (n : nat) :
  (1 ≤ n)%nat →
  seed_watches (Some d) =
    (if 0 <? Z.of_nat (length (db_collection d "watch")) then
       (Return (VDict (py_dict [("inserted", VInt 0); ("message", VStr "Already seeded")])),
        Some d)
     else (Return (VDict (py_dict [("inserted", VInt 3)])), Some (seeded d)))
  ∧ fields <$> db_collection (seeded d) "watch" =
      ((fields <$> db_collection d "watch") ++ sample)%list
  ∧ length sample = 3%nat
  ∧ watch_count (seed_n n (Some d)) = watch_count (seed_n 1 (Some d)).
Proof.
  intros Hn. split; [apply seed_run|]. split; [|split; [done|]].
  - apply seeded_watches.
  - destruct n as [|n]; [lia|].
    cbn [seed_n]. destruct (seed_first d) as (d' & -> & Hd').
    by rewrite seed_again.
Qed.

Lemma seed_idempotent_witness :
  (1 ≤ 5)%nat
  ∧ watch_count (seed_n 5 (Some empty_db)) = watch_count (seed_n 1 (Some empty_db))
  ∧ watch_count (seed_n 1 (Some empty_db)) = Some 3%nat.
Proof.
  split; [lia|]. split.
  - apply (seed_idempotent empty_db 5). lia.
  - vm_compute. reflexivity.
Defined.

(** ** Looking up a watch *)

Lemma find_one_id d o :
  pymongo.find_one "watch" [("_id", Eq_oid o)] d = (Return (to_dict <$> watch_by_id d o), d).
Proof.
  unfold pymongo.find_one. run_find.
  cbn. unfold watch_by_id. by destruct (select _ _).
Qed.

Lemma truthy_found (w : option document) :
  truthy_doc (to_dict <$> w) = to_dict <$> w.
Proof. destruct w as [w|]; [apply truthy_to_dict|done]. Qed.

Lemma get_watch_run d watch_id :
  get_watch watch_id (Some d) =
    match Oid.parse watch_id with
    | Return o =>
        match watch_by_id d o with
        | Some w => (Return (VDict (shaped w)), Some d)
        | None => (Raise (HTTPException 400 "Invalid ID"), Some d)
        end
    | Raise _ => (Raise (HTTPException 400 "Invalid ID"), Some d)
    end.
Proof.
  unfold get_watch, with_db, try_except.
  rewrite lift_bind_run. destruct (Oid.parse watch_id) as [o|e]; [|done].
  unfold mbind, App_bind. rewrite find_one_id, truthy_found.
  destruct (watch_by_id d o) as [w|]; [|done].
  cbn. rewrite rename_id_to_dict. done.
Qed.

(** The handler never answers 404: the [HTTPException] raised for a missing
    watch is caught by [except Exception] and replaced. *)
Lemma get_watch_never_404 d watch_id detail db' :
  get_watch watch_id (Some d) ≠ (Raise (HTTPException 404 detail), db').
Proof.
  rewrite get_watch_run.
  destruct (Oid.parse watch_id); [destruct (watch_by_id d _)|]; discriminate.
Qed.

(** A malformed identifier gives the malformed-identifier error. *)
Lemma get_watch_malformed d watch_id :
  Oid.parse watch_id = Raise InvalidId →
  get_watch watch_id (Some d) = (Raise (HTTPException 400 "Invalid ID"), Some d).
Proof. intros H. by rewrite get_watch_run, H. Qed.

(** C1 (the code departs from it): a well-formed identifier under which no
    watch is stored is answered with status 400 "Invalid ID", not with 404:
    here on the seeded catalogue. *)
Theorem get_watch_absent_is_400 :
  Oid.parse "ffffffffffffffffffffffff" = Return (2 ^ 96 - 1)%N
  ∧ watch_by_id seeded_db (2 ^ 96 - 1)%N = None
  ∧ get_watch "ffffffffffffffffffffffff" (Some seeded_db) =
      (Raise (HTTPException 400 "Invalid ID"), Some seeded_db).
Proof.
  split; [vm_compute; reflexivity|]. split; [vm_compute; reflexivity|].
  rewrite get_watch_run.
  replace (Oid.parse "ffffffffffffffffffffffff") with (@Return ObjectId (2 ^ 96 - 1)%N)
    by (vm_compute; reflexivity).
  replace (watch_by_id seeded_db (2 ^ 96 - 1)%N) with (@None document)
    by (vm_compute; reflexivity).
  reflexivity.
Qed.

(** ** Adding to a cart *)

Lemma add_to_cart_run d payload :
  add_to_cart payload (Some d) =
    match Oid.parse (AddToCartIn.product_id payload) with
    | Return o =>
        match watch_by_id d o with
        | Some w =>
            match Num.py_float (dict_get "price" (VInt 0) (to_dict w)) with
            | Return price =>
                (Return (VDict (py_dict [("status", VStr "ok")])),
                 Some (inserted d "cartitem" (cart_item payload (to_dict w) price)))
            | Raise e => (Raise e, Some d)
            end
        | None => (Raise (HTTPException 404 "Product not found"), Some d)
        end
    | Raise e => (Raise e, Some d)
    end.
Proof.
  unfold add_to_cart, with_db.
  rewrite lift_bind_run. destruct (Oid.parse _) as [o|e]; [|done].
  unfold mbind at 1. unfold App_bind. rewrite find_one_id, truthy_found.
  destruct (watch_by_id d o) as [w|]; [|done].
  cbn [fmap option_fmap option_map]. rewrite lift_bind_run.
  by destruct (Num.py_float _).
Qed.

(** What [add_to_cart] stores for a request whose quantity is in the store's
    64-bit range is typed as the [CartItem] schema types it; the quantity is
    the one of the request, whatever its sign. *)
Lemma add_to_cart_typed d payload r d' :
  - 2 ^ 63 ≤ AddToCartIn.quantity payload < 2 ^ 63 →
  add_to_cart payload (Some d) = (Return r, Some d') →
  ∃ item,
    d' = inserted d "cartitem" item
    ∧ item !! "quantity" = Some (VInt (AddToCartIn.quantity payload))
    ∧ is_Some (line_amount item).
Proof.
  intros Hq. rewrite add_to_cart_run.
  destruct (Oid.parse _) as [o|]; [|discriminate].
  destruct (watch_by_id d o) as [w|]; [|discriminate].
  destruct (Num.py_float _) as [price|] eqn:Hprice; [|discriminate].
  intros [= _ <-]. destruct (py_float_is_float _ _ Hprice) as [p ->].
  eexists. split; [reflexivity|]. split; [done|].
  by apply (line_amount_typed _ p (AddToCartIn.quantity payload)).
Qed.

(** C2 (the code departs from it): a request with quantity 0 is accepted
    and its record is stored with quantity 0; a request without quantity
    stores 1. *)
Theorem add_to_cart_stores_zero :
  let stored_quantities (quantity : option Z) :=
    (λ doc, fields doc !! "quantity") <$>
      db_collection
        (default empty_db
           (add_to_cart
              (AddToCartIn.validate "c1" "000000000000000000000000" quantity)
              (Some seeded_db)).2)
        "cartitem" in
  stored_quantities (Some 0) = [Some (VInt 0)]
  ∧ stored_quantities (Some (-3)) = [Some (VInt (-3))]
  ∧ stored_quantities None = [Some (VInt 1)].
Proof. vm_compute. done. Qed.

Lemma cart_item_amount payload product p n :
  AddToCartIn.quantity payload = 1 →
  line_amount (shaped (Document n (cart_item payload product (VFloat p)))) = Some (p * 1)%float.
Proof.
  intros Hq. unfold line_amount. rewrite !shaped_lookup by done.
  cbn [fields]. unfold cart_item, py_dict. cbn [list_to_map foldr curry fst snd uncurry].
  rewrite Hq.
  replace (_ !! "price_snapshot") with (Some (VFloat p)) by done.
  replace (_ !! "quantity") with (Some (VInt 1)) by done.
  done.
Qed.

Lemma cart_item_selected payload product price n :
  select [("cart_id", Test_str (AddToCartIn.cart_id payload))]
    [Document n (cart_item payload product price)] =
  [Document n (cart_item payload product price)].
Proof.
  unfold select. cbn [List.filter]. unfold matches. cbn [forallb fst snd].
  rewrite to_dict_lookup by done. cbn [fields].
  replace (cart_item payload product price !! "cart_id")
    with (Some (VStr (AddToCartIn.cart_id payload))) by done.
  cbn [field_test scalar_test]. by rewrite String.eqb_refl.
Qed.

(** C8: two [POST /cart/add] with the same cart and product, quantity 1
    each, append two records of quantity 1 under different identifiers
    (they are not merged into one of quantity 2), and the total of the cart
    then counts both. *)
Theorem add_twice_two_records (d : Database) (cart_id product_id : string)
    (o : ObjectId) (w : document) (p : float) (amounts : list float) :
  let payload := AddToCartIn.validate cart_id product_id (Some 1) in
  let item := cart_item payload (to_dict w) (VFloat p) in
  let d1 := inserted d "cartitem" item in
  let d2 := inserted d1 "cartitem" item in
  let added := [Document (next_oid d) item; Document (N.succ (next_oid d)) item] in
  Oid.parse product_id = Return o →
  watch_by_id d o = Some w →
  fields w !! "price" = Some (VFloat p) →
  mapM line_amount (shaped <$> cart_docs d cart_id) = Some amounts →
  add_to_cart payload (Some d) = (Return (VDict (py_dict [("status", VStr "ok")])), Some d1)
  ∧ add_to_cart payload (Some d1) = (Return (VDict (py_dict [("status", VStr "ok")])), Some d2)
  ∧ db_collection d2 "cartitem" = (db_collection d "cartitem" ++ added)%list
  ∧ next_oid d ≠ N.succ (next_oid d)
  ∧ item !! "quantity" = Some (VInt 1)
  ∧ cart_docs d2 cart_id = (cart_docs d cart_id ++ added)%list
  ∧ get_cart cart_id (Some d2) =
      (Return (VDict (py_dict [
         ("items", VList (VDict <$> (shaped <$> (cart_docs d cart_id ++ added)%list)));
         ("total", VFloat (rounded_sum (amounts ++ [(p * 1)%float; (p * 1)%float])%list))])),
       Some d2).
Proof.
  intros payload item d1 d2 added Ho Hw Hp Hamounts.
  assert (Hrun : ∀ d0, watch_by_id d0 o = Some w →
            add_to_cart payload (Some d0) =
              (Return (VDict (py_dict [("status", VStr "ok")])),
               Some (inserted d0 "cartitem" item))).
  { intros d0 Hw0. rewrite add_to_cart_run. cbn [AddToCartIn.product_id payload AddToCartIn.validate].
    rewrite Ho, Hw0. unfold dict_get. rewrite to_dict_lookup by done. rewrite Hp. done. }
  assert (Hcoll : db_collection d2 "cartitem" = (db_collection d "cartitem" ++ added)%list).
  { unfold d2, d1. autorewrite with store. by rewrite <- app_assoc. }
  assert (Hdocs : cart_docs d2 cart_id = (cart_docs d cart_id ++ added)%list).
  { unfold cart_docs. rewrite Hcoll, select_app. f_equal.
    change added with ([Document (next_oid d) item] ++ [Document (N.succ (next_oid d)) item])%list.
    rewrite select_app.
    by rewrite (cart_item_selected payload (to_dict w) (VFloat p)),
               (cart_item_selected payload (to_dict w) (VFloat p)). }
  split; [by apply Hrun|]. split.
  { apply Hrun. unfold watch_by_id, d1. by rewrite inserted_other. }
  split; [exact Hcoll|]. split; [lia|]. split; [done|]. split; [exact Hdocs|].
  rewrite get_cart_run, Hdocs.
  rewrite (cart_response_amounts _ (amounts ++ [(p * 1)%float; (p * 1)%float])%list).
  - by destruct amounts.
  - rewrite fmap_app. apply mapM_Some. apply Forall2_app.
    + by apply mapM_Some.
    + unfold added, item. repeat constructor; by apply cart_item_amount.
Qed.

Lemma add_twice_two_records_witness :
  let payload := AddToCartIn.validate "c1" "000000000000000000000000" (Some 1) in
  let w := Document 0%N (default ∅ (head sample)) in
  let item := cart_item payload (to_dict w) (VFloat 599.0) in
  let d2 := inserted (inserted seeded_db "cartitem" item) "cartitem" item in
  (add_to_cart payload (add_to_cart payload (Some seeded_db)).2).2 = Some d2
  ∧ cart_docs d2 "c1" = [Document 3%N item; Document 4%N item]
  ∧ (get_cart "c1" (Some d2)).1 =
      Return (VDict (py_dict [
        ("items", VList [VDict (shaped (Document 3%N item));
                         VDict (shaped (Document 4%N item))]);
        ("total", VFloat 1198.0)])).
Proof.
  intros payload w item d2.
  destruct (add_twice_two_records seeded_db "c1" "000000000000000000000000" 0%N
              w 599.0%float [])
    as (H1 & H2 & _ & _ & _ & H5 & H6).
  - vm_compute. reflexivity.
  - vm_compute. reflexivity.
  - vm_compute. reflexivity.
  - vm_compute. reflexivity.
  - fold payload item in H1, H2, H5, H6. fold d2 in H2, H5, H6.
    split; [|split].
    + rewrite H1. cbn [snd]. rewrite H2. reflexivity.
    + exact H5.
    + rewrite H6. reflexivity.
Defined.

(** ** Searching titles *)

Lemma plain_not_special c :
  Regex.is_plain c = true →
  Ascii.eqb c "."%char = false ∧ Ascii.eqb c "\"%char = false.
Proof.
  destruct c as [[] [] [] [] [] [] [] []]; vm_compute; intros H;
    first [discriminate H | done].
Qed.

Lemma plain_lower c : Regex.is_plain (Regex.lower c) = Regex.is_plain c.
Proof. destruct c as [[] [] [] [] [] [] [] []]; vm_compute; reflexivity. Qed.

Lemma plain_pattern_lower q : plain_pattern (lower_string q) = plain_pattern q.
Proof.
  unfold plain_pattern. induction q as [|c q IH]; [done|].
  cbn. by rewrite plain_lower, IH.
Qed.

Lemma compile_plain q :
  plain_pattern q = true →
  Regex.compile q = Some (Regex.Lit <$> list_ascii_of_string q).
Proof.
  unfold plain_pattern. induction q as [|c q IH]; [done|].
  cbn [list_ascii_of_string forallb]. intros [Hc Hq]%andb_prop.
  destruct (plain_not_special c Hc) as [Hdot Hbs].
  cbn [Regex.compile]. rewrite Hdot, Hbs, Hc, (IH Hq). done.
Qed.

Lemma match_here_plain q t :
  Regex.match_here true (Regex.Lit <$> list_ascii_of_string q) t =
    String.prefix (lower_string q) (lower_string t).
Proof.
  revert t. induction q as [|c q IH]; intros t.
  - by destruct t.
  - destruct t as [|c' t]; [done|].
    cbn [list_ascii_of_string fmap list_fmap Regex.match_here lower_string String.prefix
         Regex.match_atom].
    rewrite IH. destruct (ascii_dec _ _) as [->|Hne].
    + by rewrite Ascii.eqb_refl.
    + apply Ascii.eqb_neq in Hne. by rewrite Hne.
Qed.

Lemma search_plain q t :
  Regex.search true (Regex.Lit <$> list_ascii_of_string q) t = ci_substringb q t.
Proof.
  unfold ci_substringb. induction t as [|c t IH].
  - cbn [Regex.search lower_string substringb]. by rewrite match_here_plain.
  - cbn [Regex.search lower_string substringb]. by rewrite match_here_plain, IH.
Qed.

(** [substringb] decides the occurrence of one string in another. *)
Lemma append_cons c a b : (String c a ++ b)%string = String c (a ++ b)%string.
Proof. reflexivity. Qed.

Lemma prefix_spec p t : String.prefix p t = true ↔ ∃ b, t = (p ++ b)%string.
Proof.
  revert t. induction p as [|c p IH]; intros t.
  - split; [by exists t|]. by destruct t.
  - destruct t as [|c' t]; cbn [String.prefix].
    + split; [done|]. intros [b Hb]. rewrite append_cons in Hb. discriminate Hb.
    + destruct (ascii_dec c c') as [->|Hne].
      * rewrite IH. split; intros [b Hb]; exists b; rewrite append_cons in *; congruence.
      * split; [done|]. intros [b Hb]. rewrite append_cons in Hb. congruence.
Qed.

Lemma substringb_spec p t :
  substringb p t = true ↔ ∃ a b, t = (a ++ p ++ b)%string.
Proof.
  induction t as [|c t IH]; cbn [substringb].
  - rewrite orb_false_r, prefix_spec. split.
    + intros [b Hb]. by exists EmptyString, b.
    + intros ([|? a] & b & H); [by exists b|]. rewrite append_cons in H. discriminate H.
  - rewrite orb_true_iff, prefix_spec, IH. split.
    + intros [[b Hb]|(a & b & H)].
      * by exists EmptyString, b.
      * exists (String c a), b. by rewrite append_cons, H.
    + intros ([|c' a] & b & H).
      * left. by exists b.
      * right. exists a, b. rewrite append_cons in H. congruence.
Qed.

Lemma existsb_eq {A : Type} (f g : A → bool) l :
  (∀ x, f x = g x) → existsb f l = existsb g l.
Proof. intros H. induction l as [|x l IH]; cbn; [done|]. by rewrite H, IH. Qed.

Lemma field_test_regex q fld :
  field_test (Test_regex true (Regex.Lit <$> list_ascii_of_string q)) fld =
    field_holds (ci_substringb q) fld.
Proof.
  destruct fld as [v|]; [|done].
  destruct v; cbn [field_test field_holds scalar_test]; try done.
  - apply search_plain.
  - apply existsb_eq. intros []; cbn [scalar_test]; try done. apply search_plain.
Qed.

Lemma field_test_str s fld :
  field_test (Test_str s) fld = field_holds (λ t, String.eqb t s) fld.
Proof.
  destruct fld as [v|]; [|done].
  by destruct v.
Qed.

Lemma truthy_nonempty q : q ≠ EmptyString → truthy_str (Some q) = Some q.
Proof. intros H. unfold truthy_str. by destruct q. Qed.

Lemma select_filter tests (f : document → bool) docs :
  (∀ doc, matches tests (to_dict doc) = f doc) →
  select tests docs = List.filter f docs.
Proof. intros H. unfold select. by apply List.filter_ext. Qed.

Lemma list_watches_run d collection brand q :
  q ≠ EmptyString →
  plain_pattern q = true →
  list_watches collection brand (Some q) (Some d) =
    (Return (items_response (List.filter (watch_filter collection brand q)
                               (db_collection d "watch"))),
     Some d).
Proof.
  intros Hq Hplain. unfold list_watches, with_db, get_documents.
  rewrite (truthy_nonempty q Hq). run_find.
  assert (Hc : compile_condition (Regex_cond q "i") =
                 Return (Test_regex true (Regex.Lit <$> list_ascii_of_string q))).
  { unfold compile_condition. by rewrite (compile_plain q Hplain). }
  unfold watch_filter, param_matches, title_contains.
  destruct (truthy_str collection) as [c|], (truthy_str brand) as [b|];
    cbn [app compile_query]; rewrite Hc; cbn -[to_dict shaped];
    rewrite lift_bind_run, rename_ids_to_dict; cbn -[shaped];
    unfold items_response; (erewrite select_filter; [reflexivity|]); intros doc;
    unfold matches; cbn [forallb fst snd];
    rewrite ?to_dict_lookup by done;
    rewrite ?field_test_str, field_test_regex, ?andb_true_r, ?andb_assoc; done.
Qed.

(** [GET /watches] never writes, whatever the pattern. *)
Lemma list_watches_reads d collection brand q :
  (list_watches collection brand q (Some d)).2 = Some d.
Proof.
  unfold list_watches, with_db, get_documents. run_find.
  destruct (compile_query _) as [tests|e]; [|done].
  rewrite ret_bind, lift_bind_run, rename_ids_to_dict. done.
Qed.

Lemma chrono_any_case q :
  lower_string q = "chrono" →
  q ≠ EmptyString
  ∧ plain_pattern q = true
  ∧ ci_substringb q "ChronoMaster Pro" = true
  ∧ ci_substringb q "AquaSport 300" = false.
Proof.
  intros H. split; [by intros ->|]. split.
  - by rewrite <- plain_pattern_lower, H.
  - unfold ci_substringb. rewrite H. by vm_compute.
Qed.

(** C9, as the code has it: [q] is searched in the title as a
    case-insensitive regular expression, next to the exact-match filters on
    [collection] and [brand]; for a [q] without metacharacters that is a
    case-insensitive substring match on the title alone, and "Chrono" in
    any letter case occurs in "ChronoMaster Pro" and not in
    "AquaSport 300". *)
Theorem list_watches_title_search (d : Database) (collection brand : option string)
    (q : string) :
  (q ≠ EmptyString → plain_pattern q = true →
   list_watches collection brand (Some q) (Some d) =
     (Return (items_response (List.filter (watch_filter collection brand q)
                                (db_collection d "watch"))),
      Some d))
  ∧ (∀ t, ci_substringb q t = true ↔
          ∃ a b, lower_string t = (a ++ lower_string q ++ b)%string)
  ∧ (lower_string q = "chrono" →
     q ≠ EmptyString
     ∧ plain_pattern q = true
     ∧ ci_substringb q "ChronoMaster Pro" = true
     ∧ ci_substringb q "AquaSport 300" = false).
Proof.
  split; [apply list_watches_run|]. split.
  - intros t. apply substringb_spec.
  - apply chrono_any_case.
Qed.

Lemma list_watches_title_search_witness :
  "cHRONO" ≠ EmptyString
  ∧ plain_pattern "cHRONO" = true
  ∧ lower_string "cHRONO" = "chrono"
  ∧ list_watches None None (Some "cHRONO") (Some seeded_db) =
      (Return (items_response [Document 0%N (default ∅ (head sample))]), Some seeded_db).
Proof.
  split; [discriminate|]. split; [reflexivity|]. split; [reflexivity|].
  destruct (list_watches_title_search seeded_db None None "cHRONO") as (H & _ & _).
  rewrite H; [|discriminate|reflexivity].
  vm_compute. reflexivity.
Defined.

(** C9 as stated fails: the pattern "." is no substring of "AquaSport 300",
    yet [GET /watches?q=.] returns that watch with the others. *)
Lemma list_watches_dot_counterexample :
  ci_substringb "." "AquaSport 300" = false
  ∧ titles_of (list_watches None None (Some ".") (Some seeded_db)).1 =
      Some [Some (VStr "ChronoMaster Pro"); Some (VStr "Elegance Dress 40");
            Some (VStr "AquaSport 300")].
Proof. split; vm_compute; reflexivity. Qed.

(** ** The stores the API produces *)

Lemma with_db_some {A : Type} (body : App A) d :
  (with_db body (Some d)).2 = Some (body d).2.
Proof. unfold with_db. by destruct (body d). Qed.

Lemma handle_some r d : ∃ d', (handle r (Some d)).2 = Some d'.
Proof. destruct r; cbn [handle]; eexists; apply with_db_some. Qed.

Lemma seeded_other d name :
  name ≠ "watch" → db_collection (seeded d) name = db_collection d name.
Proof.
  intros Hname. unfold seeded. generalize sample. intros docs. revert d.
  induction docs as [|doc docs IH]; intros d; cbn [fold_left]; [done|].
  rewrite IH. by apply inserted_other.
Qed.

Lemma typed_carts_same d d' :
  db_collection d' "cartitem" = db_collection d "cartitem" →
  typed_carts d → typed_carts d'.
Proof. unfold typed_carts. by intros ->. Qed.

(** Every endpoint keeps the cart items typed. *)
Lemma handle_typed r d d' :
  storable r → typed_carts d → (handle r (Some d)).2 = Some d' → typed_carts d'.
Proof.
  intros Hr Hd. destruct r; cbn [handle].
  - rewrite seed_run. destruct (0 <? _); intros [= <-]; [done|].
    apply (typed_carts_same d); [|done]. by apply seeded_other.
  - rewrite list_watches_reads. by intros [= <-].
  - rewrite get_watch_run.
    destruct (Oid.parse _); [destruct (watch_by_id d _)|]; by intros [= <-].
  - destruct (add_to_cart payload (Some d)) as [[r|e] db'] eqn:E; cbn [snd].
    + intros ->. destruct (add_to_cart_typed _ _ _ _ Hr E) as (item & -> & _ & Hitem).
      unfold typed_carts. rewrite inserted_same. apply Forall_app. split; [done|].
      by constructor.
    + rewrite add_to_cart_run in E.
      destruct (Oid.parse _); [destruct (watch_by_id d _); [destruct (Num.py_float _)|]|];
        first [discriminate E | (injection E as _ <-; by intros [= <-])].
  - rewrite get_cart_run. by intros [= <-].
  - destruct (cart_docs d (CheckoutIn.cart_id payload)) as [|doc docs] eqn:Hdocs.
    + rewrite (checkout_empty _ _ Hdocs). by intros [= <-].
    + rewrite checkout_nonempty by (by rewrite Hdocs).
      destruct (order_doc _ _); intros [= <-]; [|done].
      apply (typed_carts_same d); [|done]. by apply inserted_other.
Qed.

Lemma serve_typed rs d d' :
  Forall storable rs → typed_carts d → serve rs (Some d) = Some d' → typed_carts d'.
Proof.
  intros Hrs. revert d. induction Hrs as [|r rs Hr Hrs IH]; intros d Hd.
  - cbn. by intros [= <-].
  - cbn [serve]. destruct (handle_some r d) as [d1 H1]. rewrite H1.
    apply IH. by apply (handle_typed r d).
Qed.

(** In every store that requests lead to from a fresh deployment, the items
    of every cart have amounts. *)
Lemma served_carts_typed rs d cart_id :
  Forall storable rs →
  serve rs (Some empty_db) = Some d →
  ∃ amounts, mapM line_amount (shaped <$> cart_docs d cart_id) = Some amounts.
Proof.
  intros Hrs Hd. apply mapM_is_Some.
  assert (Ht : typed_carts d).
  { apply (serve_typed rs empty_db d Hrs); [|done]. unfold typed_carts. constructor. }
  apply Forall_fmap. unfold cart_docs, select.
  apply Forall_forall. intros doc [Hin _]%list_elem_of_In%List.filter_In.
  unfold typed_carts in Ht. rewrite Forall_forall in Ht.
  cbn. unfold line_amount. rewrite !shaped_lookup by done.
  apply (Ht doc), list_elem_of_In, Hin.
Qed.

(** * Further properties of the endpoints *)

(** ** What an endpoint does to the store *)

Lemma handle_effect r d : ∃ d', (handle r (Some d)).2 = Some d' ∧ effect d d'.
Proof.
  destruct r; cbn [handle].
  - rewrite seed_run. destruct (db_collection d "watch") as [|w ws] eqn:E.
    + exists (seeded d). split; [done|]. by constructor.
    + exists d. split; [done|]. constructor.
  - exists d. split; [apply list_watches_reads|constructor].
  - exists d. split; [|constructor]. rewrite get_watch_run.
    by destruct (Oid.parse _); [destruct (watch_by_id d _)|].
  - rewrite add_to_cart_run.
    destruct (Oid.parse _); [destruct (watch_by_id d _); [destruct (Num.py_float _)|]|];
      eexists; (split; [reflexivity|]); constructor.
  - exists d. split; [by rewrite get_cart_run|constructor].
  - destruct (cart_docs d (CheckoutIn.cart_id payload)) as [|doc docs] eqn:Hdocs.
    + rewrite (checkout_empty _ _ Hdocs). exists d. split; [done|constructor].
    + rewrite checkout_nonempty by (by rewrite Hdocs).
      destruct (order_doc _ _); eexists; (split; [reflexivity|]); constructor.
Qed.

Lemma effect_appends d d' name :
  effect d d' → ∃ new, db_collection d' name = (db_collection d name ++ new)%list.
Proof.
  intros [|item|order|Hempty].
  - exists []. by rewrite app_nil_r.
  - destruct (decide (name = "cartitem")) as [->|Hne].
    + eexists. apply inserted_same.
    + exists []. rewrite app_nil_r. by apply inserted_other.
  - destruct (decide (name = "order")) as [->|Hne].
    + eexists. apply inserted_same.
    + exists []. rewrite app_nil_r. by apply inserted_other.
  - destruct (decide (name = "watch")) as [->|Hne].
    + unfold seeded. generalize sample. intros docs. revert d Hempty.
      assert (H : ∀ d0, ∃ new,
                db_collection (fold_left (λ d1 doc, inserted d1 "watch" doc) docs d0) "watch" =
                  (db_collection d0 "watch" ++ new)%list).
      { induction docs as [|doc docs IH]; intros d0; cbn [fold_left].
        - exists []. by rewrite app_nil_r.
        - destruct (IH (inserted d0 "watch" doc)) as [new Hnew].
          eexists. rewrite Hnew, inserted_same, <- app_assoc. reflexivity. }
      intros d _. apply H.
    + exists []. rewrite app_nil_r. by apply seeded_other.
Qed.

(** X1: without a store every endpoint raises 500 "Database not available"
    and the handle stays [None]. *)
Theorem unavailable_store_is_500 (r : request) :
  handle r None = (Raise (HTTPException 500 "Database not available"), None).
Proof. by destruct r. Qed.

(** X2: the three reading endpoints return the store as they found it,
    whether they answer or raise. *)
Theorem reads_never_write (d : Database) (collection brand q : option string)
    (watch_id cart_id : string) :
  (list_watches collection brand q (Some d)).2 = Some d
  ∧ (get_watch watch_id (Some d)).2 = Some d
  ∧ (get_cart cart_id (Some d)).2 = Some d.
Proof.
  split; [apply list_watches_reads|]. split.
  - rewrite get_watch_run. by destruct (Oid.parse _); [destruct (watch_by_id d _)|].
  - by rewrite get_cart_run.
Qed.

(** X3: with the store available [GET /watches/{id}] returns the stored watch,
    its [_id] replaced by [id], when the identifier is well formed and a
    watch is stored under it, and raises 400 "Invalid ID" in every other
    case: it has no other outcome. *)
Theorem get_watch_outcomes (d : Database) (watch_id : string) :
  get_watch watch_id (Some d) =
    match Oid.parse watch_id with
    | Return o =>
        match watch_by_id d o with
        | Some w => (Return (VDict (shaped w)), Some d)
        | None => (Raise (HTTPException 400 "Invalid ID"), Some d)
        end
    | Raise _ => (Raise (HTTPException 400 "Invalid ID"), Some d)
    end.
Proof. apply get_watch_run. Qed.

(** X4: no endpoint deletes or changes a stored document: after any request
    every collection is what it was, with what the request appended. *)
Theorem store_is_append_only (r : request) (d : Database) (name : string) :
  ∃ d' new,
    (handle r (Some d)).2 = Some d'
    ∧ db_collection d' name = (db_collection d name ++ new)%list.
Proof.
  destruct (handle_effect r d) as (d' & Hd' & He).
  destruct (effect_appends d d' name He) as [new Hnew]. by exists d', new.
Qed.

Lemma effect_catalogue d d' : effect d d' → catalogue_ok d → catalogue_ok d'.
Proof.
  unfold catalogue_ok. intros [|item|order|Hempty] H.
  - done.
  - by rewrite inserted_other.
  - by rewrite inserted_other.
  - right. by rewrite seeded_watches, Hempty.
Qed.

Lemma serve_invariant (P : Database → Prop) rs d d' :
  (∀ d1 d2, effect d1 d2 → P d1 → P d2) →
  P d → serve rs (Some d) = Some d' → P d'.
Proof.
  intros Hstep. revert d. induction rs as [|r rs IH]; intros d Hd.
  - cbn. by intros [= <-].
  - cbn [serve]. destruct (handle_effect r d) as (d1 & -> & He).
    apply IH. by apply (Hstep d d1).
Qed.

(** X5: whatever requests a fresh deployment has served, its catalogue is
    empty or holds exactly the three samples: no endpoint adds, changes or
    removes a watch but the seeding of an empty catalogue. *)
Theorem served_catalogue (rs : list request) (d : Database) :
  serve rs (Some empty_db) = Some d →
  fields <$> db_collection d "watch" = [] ∨ fields <$> db_collection d "watch" = sample.
Proof.
  apply (serve_invariant catalogue_ok).
  - apply effect_catalogue.
  - by left.
Qed.

Lemma served_catalogue_witness :
  let rs := [Seed; AddToCart (AddToCartIn.validate "c1" "000000000000000000000000" None);
             Seed; Checkout (CheckoutIn.Make "c1" None)] in
  let d := default empty_db (serve rs (Some empty_db)) in
  serve rs (Some empty_db) = Some d
  ∧ (fields <$> db_collection d "watch" = [] ∨ fields <$> db_collection d "watch" = sample).
Proof.
  intros rs d.
  assert (H : serve rs (Some empty_db) = Some d) by (vm_compute; reflexivity).
  split; [exact H|]. exact (served_catalogue rs d H).
Defined.

(** ** Identifiers *)

Lemma hex_digit_char dgt : (dgt < 16)%N → Oid.hex_digit (Oid.hex_char dgt) = Some dgt.
Proof.
  intros H.
  assert (Hc : dgt ∈ (N.of_nat <$> seq 0 16)).
  { apply list_elem_of_fmap. exists (N.to_nat dgt). split; [lia|].
    apply list_elem_of_In, in_seq. lia. }
  cbn in Hc. repeat (apply elem_of_cons in Hc as [->|Hc]; [reflexivity|]).
  by apply elem_of_nil in Hc.
Qed.

Lemma hex_digits_length k n acc :
  String.length (Oid.hex_digits k n acc) = (k + String.length acc)%nat.
Proof.
  revert n acc. induction k as [|k IH]; intros n acc; [done|].
  cbn [Oid.hex_digits]. rewrite IH. cbn. lia.
Qed.

Lemma hex_char_not_space dgt : (dgt < 16)%N → Oid.is_space (Oid.hex_char dgt) = false.
Proof.
  intros H.
  assert (Hc : dgt ∈ (N.of_nat <$> seq 0 16)).
  { apply list_elem_of_fmap. exists (N.to_nat dgt). split; [lia|].
    apply list_elem_of_In, in_seq. lia. }
  cbn in Hc. repeat (apply elem_of_cons in Hc as [->|Hc]; [reflexivity|]).
  by apply elem_of_nil in Hc.
Qed.

(** Reading back [k] bytes written in hexadecimal. *)
Lemma fromhex_digits k n acc a count :
  Oid.fromhex (Oid.hex_digits (2 * k) n acc) a count =
    Oid.fromhex acc (a * 256 ^ N.of_nat k + n mod 256 ^ N.of_nat k)%N (count + k).
Proof.
  revert n acc. induction k as [|k IH]; intros n acc.
  - cbn [Nat.mul Oid.hex_digits]. f_equal; [|lia].
    change (256 ^ N.of_nat 0)%N with 1%N. rewrite N.mod_1_r. lia.
  - replace (2 * S k)%nat with (S (S (2 * k))) by lia.
    cbn [Oid.hex_digits]. rewrite IH. cbn [Oid.fromhex].
    rewrite hex_char_not_space by (apply N.mod_lt; lia).
    rewrite !hex_digit_char by (apply N.mod_lt; lia).
    f_equal; [|lia].
    rewrite Nat2N.inj_succ, N.pow_succ_r by lia.
    rewrite (N.Div0.mod_mul_r n 256 (256 ^ N.of_nat k)).
    rewrite N.Div0.div_div. change (16 * 16)%N with 256%N.
    assert (H : (n mod 256 = 16 * (n / 16 mod 16) + n mod 16)%N).
    { change 256%N with (16 * 16)%N. rewrite N.Div0.mod_mul_r. lia. }
    lia.
Qed.

Lemma oid_str_length o : String.length (Oid.str o) = 24%nat.
Proof. unfold Oid.str. by rewrite hex_digits_length. Qed.

(** The string of an identifier of 12 bytes reads back as the identifier. *)
Lemma oid_str_parse o : (o < 2 ^ 96)%N → Oid.parse (Oid.str o) = Return o.
Proof.
  intros Ho. unfold Oid.parse. rewrite oid_str_length. cbn [Nat.eqb].
  unfold Oid.str. rewrite (fromhex_digits 12). cbn [Oid.fromhex].
  change (256 ^ N.of_nat 12)%N with (2 ^ 96)%N.
  rewrite N.mul_0_l, N.add_0_l, N.mod_small by done. done.
Qed.

Lemma select_in tests docs doc :
  doc ∈ docs → matches tests (to_dict doc) = true →
  ∃ doc', head (select tests docs) = Some doc'
          ∧ doc' ∈ docs ∧ matches tests (to_dict doc') = true.
Proof.
  intros Hin Hm. unfold select.
  destruct (List.filter _ docs) as [|doc' rest] eqn:E.
  - assert (Hf : In doc (List.filter (λ doc0, matches tests (to_dict doc0)) docs)).
    { apply List.filter_In. split; [by apply list_elem_of_In|done]. }
    rewrite E in Hf. destruct Hf.
  - exists doc'. split; [done|].
    assert (Hf : In doc' (List.filter (λ doc0, matches tests (to_dict doc0)) docs)).
    { rewrite E. by left. }
    apply List.filter_In in Hf as [Hf1 Hf2]. split; [by apply list_elem_of_In|done].
Qed.

Lemma matches_id o doc : matches [("_id", Test_oid o)] (to_dict doc) = (_id doc =? o)%N.
Proof.
  unfold matches. cbn [forallb fst snd]. rewrite to_dict_id. cbn. by rewrite andb_true_r.
Qed.

(** X6: the [id] under which a watch is returned fetches a watch again: for
    every stored watch, [GET /watches/{id}] with the string of its
    identifier answers with a stored watch of that identifier, whose [id]
    is that same string. *)
Theorem listed_id_fetches_watch (d : Database) (w : document) :
  w ∈ db_collection d "watch" →
  (_id w < 2 ^ 96)%N →
  ∃ w',
    get_watch (Oid.str (_id w)) (Some d) = (Return (VDict (shaped w')), Some d)
    ∧ w' ∈ db_collection d "watch"
    ∧ _id w' = _id w
    ∧ shaped w' !! "id" = Some (VStr (Oid.str (_id w))).
Proof.
  intros Hin Hid.
  destruct (select_in [("_id", Test_oid (_id w))] _ w Hin) as (w' & Hhead & Hin' & Hm).
  { rewrite matches_id. apply N.eqb_refl. }
  rewrite matches_id in Hm. apply N.eqb_eq in Hm.
  exists w'. rewrite get_watch_run, (oid_str_parse _ Hid).
  unfold watch_by_id. rewrite Hhead. split; [done|]. split; [done|]. split; [done|].
  unfold shaped. rewrite lookup_insert_eq. by rewrite Hm.
Qed.

Lemma listed_id_fetches_watch_witness :
  let w := Document 1%N (default ∅ (sample !! 1%nat)) in
  ∃ w',
    get_watch (Oid.str (_id w)) (Some seeded_db) = (Return (VDict (shaped w')), Some seeded_db)
    ∧ w' ∈ db_collection seeded_db "watch"
    ∧ _id w' = _id w
    ∧ shaped w' !! "id" = Some (VStr (Oid.str (_id w))).
Proof.
  intros w. apply (listed_id_fetches_watch seeded_db w).
  - apply list_elem_of_lookup. exists 1%nat. vm_compute. reflexivity.
  - vm_compute. reflexivity.
Defined.

(** ** Adding to a cart: errors and effects *)

(** X7: a product identifier that the driver refuses (a string that is not
    of 24 characters, or that [bytes.fromhex] does not read) is not
    answered with an [HTTPException]: the driver's [InvalidId] leaves
    [add_to_cart] uncaught, and nothing is stored. *)
Theorem add_to_cart_malformed_id (d : Database) (payload : AddToCartIn.t) (e : exn) :
  Oid.parse (AddToCartIn.product_id payload) = Raise e →
  e = InvalidId
  ∧ add_to_cart payload (Some d) = (Raise InvalidId, Some d).
Proof.
  intros H. assert (He : e = InvalidId).
  { unfold Oid.parse in H.
    destruct (_ =? _)%nat; [destruct (Oid.fromhex _ _ _) as [[]|]|]; congruence. }
  split; [done|]. rewrite add_to_cart_run, H. by rewrite He.
Qed.

Lemma add_to_cart_malformed_id_witness :
  Oid.parse "not-an-id" = Raise InvalidId
  ∧ add_to_cart (AddToCartIn.validate "c1" "not-an-id" None) (Some seeded_db) =
      (Raise InvalidId, Some seeded_db).
Proof.
  split; [reflexivity|].
  apply (add_to_cart_malformed_id seeded_db (AddToCartIn.validate "c1" "not-an-id" None) InvalidId).
  reflexivity.
Defined.




(** X8: a well-formed product identifier under which no watch is stored is
    answered with 404 "Product not found", and nothing is stored. *)
Theorem add_to_cart_unknown_product (d : Database) (payload : AddToCartIn.t) (o : ObjectId) :
  Oid.parse (AddToCartIn.product_id payload) = Return o →
  watch_by_id d o = None →
  add_to_cart payload (Some d) = (Raise (HTTPException 404 "Product not found"), Some d).
Proof. intros Ho Hw. by rewrite add_to_cart_run, Ho, Hw. Qed.

Lemma add_to_cart_unknown_product_witness :
  add_to_cart (AddToCartIn.validate "c1" "00000000000000000000000a" None) (Some seeded_db) =
    (Raise (HTTPException 404 "Product not found"), Some seeded_db).
Proof.
  apply (add_to_cart_unknown_product seeded_db _ 10%N).
  - reflexivity.
  - vm_compute. reflexivity.
Defined.

(** X9: [add_to_cart] writes all or nothing: when it raises the store is as
    it was; when it answers it has appended one cart item, which carries the
    cart, the product and the quantity of the request, and has changed no
    other collection. *)
Theorem add_to_cart_all_or_nothing (d : Database) (payload : AddToCartIn.t) :
  match add_to_cart payload (Some d) with
  | (Raise _, db') => db' = Some d
  | (Return _, db') =>
      ∃ item,
        db' = Some (inserted d "cartitem" item)
        ∧ db_collection (inserted d "cartitem" item) "cartitem" =
            (db_collection d "cartitem" ++ [Document (next_oid d) item])%list
        ∧ item !! "cart_id" = Some (VStr (AddToCartIn.cart_id payload))
        ∧ item !! "product_id" = Some (VStr (AddToCartIn.product_id payload))
        ∧ item !! "quantity" = Some (VInt (AddToCartIn.quantity payload))
        ∧ ∀ name, name ≠ "cartitem" →
            db_collection (inserted d "cartitem" item) name = db_collection d name
  end.
Proof.
  rewrite add_to_cart_run.
  destruct (Oid.parse _) as [o|]; [|done].
  destruct (watch_by_id d o) as [w|]; [|done].
  destruct (Num.py_float _) as [price|]; [|done].
  eexists. split; [reflexivity|]. split; [apply inserted_same|].
  split; [done|]. split; [done|]. split; [done|].
  intros name Hname. by apply inserted_other.
Qed.

(** X10: the snapshots of a product that lacks fields, for a quantity of
    64 bits at most (which the store takes): without [price] the price
    snapshot is 0.0, and a missing [title] or [image] is snapshot as
    null. *)
Theorem add_to_cart_missing_fields (d : Database) (payload : AddToCartIn.t)
    (o : ObjectId) (w : document) :
  int64 (AddToCartIn.quantity payload) →
  Oid.parse (AddToCartIn.product_id payload) = Return o →
  watch_by_id d o = Some w →
  fields w !! "price" = None →
  ∃ item,
    add_to_cart payload (Some d) =
      (Return (VDict (py_dict [("status", VStr "ok")])), Some (inserted d "cartitem" item))
    ∧ item !! "price_snapshot" = Some (VFloat 0)
    ∧ item !! "title_snapshot" = Some (default VNone (fields w !! "title"))
    ∧ item !! "image_snapshot" = Some (default VNone (fields w !! "image")).
Proof.
  intros _ Ho Hw Hp. exists (cart_item payload (to_dict w) (VFloat 0)).
  split; [|split; [|split]].
  - rewrite add_to_cart_run, Ho, Hw. unfold dict_get.
    rewrite to_dict_lookup, Hp by done. done.
  - done.
  - unfold cart_item, dict_get. by rewrite !to_dict_lookup.
  - unfold cart_item, dict_get. by rewrite !to_dict_lookup.
Qed.

Lemma add_to_cart_missing_fields_witness :
  let d := inserted empty_db "watch" (py_dict [("brand", VStr "Anon")]) in
  let payload := AddToCartIn.validate "c1" "000000000000000000000000" None in
  ∃ item,
    add_to_cart payload (Some d) =
      (Return (VDict (py_dict [("status", VStr "ok")])), Some (inserted d "cartitem" item))
    ∧ item !! "price_snapshot" = Some (VFloat 0)
    ∧ item !! "title_snapshot" = Some VNone
    ∧ item !! "image_snapshot" = Some VNone.
Proof.
  intros d payload.
  apply (add_to_cart_missing_fields d payload 0%N (Document 0%N (py_dict [("brand", VStr "Anon")])));
    first [vm_compute; reflexivity | (unfold int64; cbn; lia)].
Defined.

(** ** Carts *)

Lemma cart_docs_inserted_other d name data cart_id :
  name ≠ "cartitem" → cart_docs (inserted d name data) cart_id = cart_docs d cart_id.
Proof. intros H. unfold cart_docs. by rewrite inserted_other. Qed.

Lemma cart_docs_inserted d item cart_id :
  cart_docs (inserted d "cartitem" item) cart_id =
    (cart_docs d cart_id ++
       select [("cart_id", Test_str cart_id)] [Document (next_oid d) item])%list.
Proof. unfold cart_docs. by rewrite inserted_same, select_app. Qed.

Lemma cart_item_not_selected payload product price n other :
  other ≠ AddToCartIn.cart_id payload →
  select [("cart_id", Test_str other)] [Document n (cart_item payload product price)] = [].
Proof.
  intros Hne. unfold select. cbn [List.filter]. unfold matches. cbn [forallb fst snd].
  rewrite to_dict_lookup by done. cbn [fields].
  replace (cart_item payload product price !! "cart_id")
    with (Some (VStr (AddToCartIn.cart_id payload))) by done.
  cbn [field_test scalar_test].
  destruct (String.eqb_spec (AddToCartIn.cart_id payload) other) as [Heq|_]; [|done].
  by destruct Hne.
Qed.

(** X11: carts do not see each other: adding to one cart, whatever the
    outcome, leaves the answer of [GET /cart] for every other cart as it
    was. *)
Theorem carts_are_isolated (d : Database) (payload : AddToCartIn.t) (other : string) :
  other ≠ AddToCartIn.cart_id payload →
  (get_cart other (add_to_cart payload (Some d)).2).1 = (get_cart other (Some d)).1.
Proof.
  intros Hne. rewrite add_to_cart_run.
  destruct (Oid.parse _) as [o|]; [|done].
  destruct (watch_by_id d o) as [w|]; [|done].
  destruct (Num.py_float _) as [price|]; [|done].
  cbn [snd]. rewrite !get_cart_run. cbn [fst].
  by rewrite cart_docs_inserted, cart_item_not_selected, app_nil_r.
Qed.

Lemma carts_are_isolated_witness :
  let payload := AddToCartIn.validate "c2" "000000000000000000000001" (Some 5) in
  "c1" ≠ "c2"
  ∧ (get_cart "c1" (add_to_cart payload (Some demo_cart)).2).1 =
      (get_cart "c1" (Some demo_cart)).1.
Proof.
  intros payload. split; [discriminate|].
  apply (carts_are_isolated demo_cart payload "c1"). discriminate.
Defined.

(** X12: what is added is what the cart shows: after a successful
    [POST /cart/add] the items of that cart are the items it had, in their
    order, followed by the new one, and [GET /cart] answers from them. *)
Theorem added_item_is_listed (d : Database) (payload : AddToCartIn.t)
    (r : value) (db' : option Database) :
  add_to_cart payload (Some d) = (Return r, db') →
  ∃ item,
    let d' := inserted d "cartitem" item in
    let cart_id := AddToCartIn.cart_id payload in
    db' = Some d'
    ∧ item !! "quantity" = Some (VInt (AddToCartIn.quantity payload))
    ∧ cart_docs d' cart_id = (cart_docs d cart_id ++ [Document (next_oid d) item])%list
    ∧ get_cart cart_id (Some d') =
        (cart_response ((shaped <$> cart_docs d cart_id)
                          ++ [shaped (Document (next_oid d) item)])%list,
         Some d').
Proof.
  rewrite add_to_cart_run.
  destruct (Oid.parse _) as [o|]; [|discriminate].
  destruct (watch_by_id d o) as [w|]; [|discriminate].
  destruct (Num.py_float _) as [price|]; [|discriminate].
  intros [= _ <-]. eexists. cbn zeta. split; [reflexivity|]. split; [done|].
  assert (Hdocs : cart_docs (inserted d "cartitem" (cart_item payload (to_dict w) price))
                    (AddToCartIn.cart_id payload) =
                  (cart_docs d (AddToCartIn.cart_id payload)
                     ++ [Document (next_oid d) (cart_item payload (to_dict w) price)])%list).
  { by rewrite cart_docs_inserted, cart_item_selected. }
  split; [exact Hdocs|].
  by rewrite get_cart_run, Hdocs, fmap_app.
Qed.

Lemma added_item_is_listed_witness :
  let payload := AddToCartIn.validate "c1" "000000000000000000000002" (Some 3) in
  ∃ item,
    (add_to_cart payload (Some demo_cart)).2 = Some (inserted demo_cart "cartitem" item)
    ∧ cart_docs (inserted demo_cart "cartitem" item) "c1" =
        (cart_docs demo_cart "c1" ++ [Document (next_oid demo_cart) item])%list.
Proof.
  intros payload.
  destruct (added_item_is_listed demo_cart payload
              (VDict (py_dict [("status", VStr "ok")]))
              (add_to_cart payload (Some demo_cart)).2)
    as (item & H1 & _ & H3 & _).
  - vm_compute. reflexivity.
  - exists item. split; [exact H1|exact H3].
Defined.

(** ** The shape of returned documents *)

Lemma shaped_ids doc :
  shaped doc !! "_id" = None
  ∧ ∃ s, shaped doc !! "id" = Some (VStr s) ∧ String.length s = 24%nat.
Proof.
  unfold shaped. split.
  - rewrite lookup_insert_ne by done. apply lookup_delete_eq.
  - exists (Oid.str (_id doc)). split; [apply lookup_insert_eq|apply oid_str_length].
Qed.

Lemma shaped_values docs : Forall shaped_value (VDict <$> (shaped <$> docs)).
Proof.
  apply Forall_fmap, Forall_fmap, Forall_forall. intros doc _.
  exists (shaped doc). split; [done|]. apply shaped_ids.
Qed.

(** X13: every document an endpoint returns has the store's [_id] replaced
    by a string [id] of 24 characters, also when the stored document had an
    [id] field of its own: the items of [GET /watches] and of [GET /cart],
    and the watch of [GET /watches/{id}]. *)
Theorem returned_documents_are_shaped (d : Database) :
  (∀ collection brand q answer db',
     list_watches collection brand q (Some d) = (Return answer, db') →
     ∃ items, field_of answer "items" = Some (VList items) ∧ Forall shaped_value items)
  ∧ (∀ cart_id answer db',
       get_cart cart_id (Some d) = (Return answer, db') →
       ∃ items, field_of answer "items" = Some (VList items) ∧ Forall shaped_value items)
  ∧ (∀ watch_id answer db',
       get_watch watch_id (Some d) = (Return answer, db') → shaped_value answer).
Proof.
  split; [|split].
  - intros collection brand q answer db'.
    unfold list_watches, with_db, get_documents. run_find.
    destruct (compile_query _) as [tests|e]; [|discriminate].
    rewrite ret_bind, lift_bind_run, rename_ids_to_dict. intros [= <- _].
    eexists. split; [reflexivity|]. apply shaped_values.
  - intros cart_id answer db'. rewrite get_cart_run. unfold cart_response.
    destruct (Num.py_sum _ _) as [total|]; [|discriminate]. rewrite ret_bind.
    destruct (Num.py_round2 _) as [total'|]; [|discriminate]. rewrite ret_bind.
    intros [= <- _]. eexists. split; [reflexivity|]. apply shaped_values.
  - intros watch_id answer db'. rewrite get_watch_run.
    destruct (Oid.parse _); [destruct (watch_by_id d _) as [w|]|]; try discriminate.
    intros [= <- _]. exists (shaped w). split; [done|]. apply shaped_ids.
Qed.

(** ** Checkout: errors, repetition, agreement with the cart *)

(** X14: a checkout that raises, for whatever reason, has stored nothing. *)
Theorem checkout_error_stores_nothing (d : Database) (payload : CheckoutIn.t)
    (e : exn) (db' : option Database) :
  checkout payload (Some d) = (Raise e, db') → db' = Some d.
Proof.
  destruct (cart_docs d (CheckoutIn.cart_id payload)) as [|doc docs] eqn:Hdocs.
  - rewrite (checkout_empty _ _ Hdocs). by intros [= _ <-].
  - rewrite checkout_nonempty by (by rewrite Hdocs).
    destruct (order_doc _ _); [discriminate|]. by intros [= _ <-].
Qed.

Lemma checkout_error_stores_nothing_witness :
  (checkout (CheckoutIn.Make "nobody" None) (Some demo_cart)).2 = Some demo_cart.
Proof.
  apply (checkout_error_stores_nothing demo_cart (CheckoutIn.Make "nobody" None)
           (HTTPException 400 "Cart is empty")).
  vm_compute. reflexivity.
Defined.

(** X15: checkout does not consume the cart: after a successful checkout the
    same request succeeds again and appends a second order with the same
    content under the next identifier. *)
Theorem checkout_twice_duplicates (d : Database) (payload : CheckoutIn.t)
    (r : value) (db' : option Database) :
  checkout payload (Some d) = (Return r, db') →
  ∃ order,
    let d1 := inserted d "order" order in
    let d2 := inserted d1 "order" order in
    db' = Some d1
    ∧ checkout payload (Some d1) =
        (Return (VDict (py_dict [("status", VStr "paid");
                                 ("order_id", VStr (Oid.str (N.succ (next_oid d))))])),
         Some d2)
    ∧ db_collection d2 "order" =
        (db_collection d "order"
           ++ [Document (next_oid d) order; Document (N.succ (next_oid d)) order])%list.
Proof.
  intros H.
  destruct (cart_docs d (CheckoutIn.cart_id payload)) as [|doc docs] eqn:Hdocs.
  { rewrite (checkout_empty _ _ Hdocs) in H. discriminate. }
  rewrite checkout_nonempty in H by (by rewrite Hdocs).
  destruct (order_doc _ _) as [order|] eqn:Horder; [|discriminate].
  injection H as _ <-. exists order. cbn zeta. split; [done|]. split.
  - rewrite checkout_nonempty; rewrite cart_docs_inserted_other by done.
    + by rewrite Horder.
    + by rewrite Hdocs.
  - autorewrite with store. by rewrite <- app_assoc.
Qed.

Lemma checkout_twice_duplicates_witness :
  let payload := CheckoutIn.Make "c1" None in
  ∃ order,
    (checkout payload (Some demo_cart)).2 = Some (inserted demo_cart "order" order)
    ∧ (checkout payload (checkout payload (Some demo_cart)).2).2 =
        Some (inserted (inserted demo_cart "order" order) "order" order).
Proof.
  intros payload.
  destruct (checkout_twice_duplicates demo_cart payload
              (VDict (py_dict [("status", VStr "paid");
                               ("order_id", VStr "000000000000000000000004")]))
              (checkout payload (Some demo_cart)).2)
    as (order & H1 & H2 & _).
  - vm_compute. reflexivity.
  - exists order. split; [exact H1|]. rewrite H1, H2. reflexivity.
Defined.

(** X16: checkout charges what the cart shows: for a cart of typed items the
    stored order holds the very items [GET /cart] returns, and its subtotal
    is the total [GET /cart] returns. *)
Theorem checkout_agrees_with_cart (d : Database) (payload : CheckoutIn.t)
    (amounts : list float) :
  let cart_id := CheckoutIn.cart_id payload in
  cart_docs d cart_id ≠ [] →
  mapM line_amount (shaped <$> cart_docs d cart_id) = Some amounts →
  ∃ answer order,
    get_cart cart_id (Some d) = (Return answer, Some d)
    ∧ (checkout payload (Some d)).2 = Some (inserted d "order" order)
    ∧ order !! "items" = field_of answer "items"
    ∧ order !! "subtotal" = field_of answer "total".
Proof.
  intros cart_id Hne H.
  assert (Hitems : shaped <$> cart_docs d cart_id ≠ []).
  { intros Hnil. apply Hne. by apply fmap_nil_inv in Hnil. }
  eexists _, (paid_order payload (shaped <$> cart_docs d cart_id) amounts).
  split; [|split; [|split]].
  - rewrite get_cart_run. by rewrite (cart_response_amounts _ _ H).
  - rewrite checkout_nonempty by done.
    fold cart_id. by rewrite (order_doc_amounts _ _ H payload Hitems).
  - done.
  - cbn [field_of]. apply mapM_Some, Forall2_length in H.
    destruct amounts as [|x rest]; [|done].
    destruct (shaped <$> cart_docs d cart_id); [done|discriminate H].
Qed.

Lemma checkout_agrees_with_cart_witness :
  ∃ answer order,
    get_cart "c1" (Some demo_cart) = (Return answer, Some demo_cart)
    ∧ (checkout (CheckoutIn.Make "c1" None) (Some demo_cart)).2 =
        Some (inserted demo_cart "order" order)
    ∧ order !! "items" = field_of answer "items"
    ∧ order !! "subtotal" = field_of answer "total".
Proof.
  apply (checkout_agrees_with_cart demo_cart (CheckoutIn.Make "c1" None) [1198.0%float]).
  - intros H. apply (f_equal length) in H. vm_compute in H. discriminate H.
  - vm_compute. reflexivity.
Defined.

(** ** The stores a deployment reaches *)

(** X17: on every store that storable requests lead to from a fresh
    deployment, [GET /cart] succeeds for every cart: no stored item breaks
    the arithmetic of the total. *)
Theorem served_get_cart_succeeds (rs : list request) (d : Database) (cart_id : string) :
  Forall storable rs →
  serve rs (Some empty_db) = Some d →
  ∃ amounts,
    get_cart cart_id (Some d) =
      (Return (VDict (py_dict [
         ("items", VList (VDict <$> (shaped <$> cart_docs d cart_id)));
         ("total", total_value amounts)])),
       Some d).
Proof.
  intros Hrs Hd. destruct (served_carts_typed rs d cart_id Hrs Hd) as [amounts H].
  exists amounts. rewrite get_cart_run. by rewrite (cart_response_amounts _ _ H).
Qed.

(** X18: on such a store checkout succeeds for every cart that has an item,
    and appends one order. *)
Theorem served_checkout_succeeds (rs : list request) (d : Database)
    (payload : CheckoutIn.t) :
  Forall storable rs →
  serve rs (Some empty_db) = Some d →
  cart_docs d (CheckoutIn.cart_id payload) ≠ [] →
  ∃ order,
    checkout payload (Some d) =
      (Return (VDict (py_dict [("status", VStr "paid");
                               ("order_id", VStr (Oid.str (next_oid d)))])),
       Some (inserted d "order" order))
    ∧ order !! "status" = Some (VStr "paid").
Proof.
  intros Hrs Hd Hne.
  destruct (served_carts_typed rs d (CheckoutIn.cart_id payload) Hrs Hd) as [amounts H].
  assert (Hitems : shaped <$> cart_docs d (CheckoutIn.cart_id payload) ≠ []).
  { intros Hnil. apply Hne. by apply fmap_nil_inv in Hnil. }
  eexists. rewrite checkout_nonempty by done.
  rewrite (order_doc_amounts _ _ H payload Hitems). split; [reflexivity|done].
Qed.

Lemma served_get_cart_succeeds_witness :
  let rs := [Seed; AddToCart (AddToCartIn.validate "c1" "000000000000000000000000" (Some (-3)));
             AddToCart (AddToCartIn.validate "c1" "000000000000000000000002" None)] in
  let d := default empty_db (serve rs (Some empty_db)) in
  ∃ amounts,
    get_cart "c1" (Some d) =
      (Return (VDict (py_dict [
         ("items", VList (VDict <$> (shaped <$> cart_docs d "c1")));
         ("total", total_value amounts)])),
       Some d).
Proof.
  intros rs d. apply (served_get_cart_succeeds rs d "c1").
  - repeat (constructor; [first [exact I | (unfold storable, int64; cbn; lia)]|]).
    constructor.
  - vm_compute. reflexivity.
Defined.

Lemma served_checkout_succeeds_witness :
  let rs := [Seed; AddToCart (AddToCartIn.validate "c1" "000000000000000000000000" None)] in
  let d := default empty_db (serve rs (Some empty_db)) in
  let payload := CheckoutIn.Make "c1" (Some "a@b.c") in
  ∃ order,
    checkout payload (Some d) =
      (Return (VDict (py_dict [("status", VStr "paid");
                               ("order_id", VStr (Oid.str (next_oid d)))])),
       Some (inserted d "order" order))
    ∧ order !! "status" = Some (VStr "paid").
Proof.
  intros rs d payload. apply (served_checkout_succeeds rs d payload).
  - repeat (constructor; [first [exact I | (unfold storable, int64; cbn; lia)]|]).
    constructor.
  - vm_compute. reflexivity.
  - intros H. apply (f_equal length) in H. vm_compute in H. discriminate H.
Defined.

(** ** Listing watches *)

Lemma filter_true {A : Type} (l : list A) : List.filter (λ _, true) l = l.
Proof. induction l as [|x l IH]; cbn; [done|by f_equal]. Qed.

(** X19: without a search pattern ([q] absent or empty) [GET /watches]
    returns, in the order of the store, the watches whose [collection] and
    [brand] equal the parameters given, letter case included; a parameter
    that is absent or empty does not filter, so that without parameters
    every watch is returned. *)
Theorem list_watches_exact_match (d : Database) (collection brand q : option string) :
  truthy_str q = None →
  list_watches collection brand q (Some d) =
    (Return (items_response
               (List.filter (λ doc, param_matches collection "collection" doc
                                    && param_matches brand "brand" doc)
                  (db_collection d "watch"))),
     Some d)
  ∧ (truthy_str collection = None → truthy_str brand = None →
     list_watches collection brand q (Some d) =
       (Return (items_response (db_collection d "watch")), Some d)).
Proof.
  intros Hq.
  assert (H : list_watches collection brand q (Some d) =
    (Return (items_response
               (List.filter (λ doc, param_matches collection "collection" doc
                                    && param_matches brand "brand" doc)
                  (db_collection d "watch"))),
     Some d)).
  { unfold list_watches, with_db, get_documents. rewrite Hq. run_find.
    unfold param_matches.
    destruct (truthy_str collection) as [c|], (truthy_str brand) as [b|];
      cbn -[to_dict shaped];
      rewrite lift_bind_run, rename_ids_to_dict; cbn -[shaped];
      unfold items_response; (erewrite select_filter; [reflexivity|]); intros doc;
      unfold matches; cbn [forallb fst snd];
      rewrite ?to_dict_lookup by done;
      rewrite ?field_test_str, ?andb_true_r; done. }
  split; [exact H|]. intros Hc Hb. rewrite H. unfold param_matches.
  rewrite Hc, Hb. cbn. by rewrite filter_true.
Qed.

Lemma list_watches_exact_match_witness :
  list_watches (Some "sport") (Some "") None (Some seeded_db) =
    (Return (items_response [Document 2%N (default ∅ (sample !! 2%nat))]), Some seeded_db)
  ∧ list_watches (Some "Sport") None (Some "") (Some seeded_db) =
      (Return (items_response []), Some seeded_db)
  ∧ list_watches (Some "") None (Some "") (Some seeded_db) =
      (Return (items_response (db_collection seeded_db "watch")), Some seeded_db).
Proof.
  split; [|split].
  - destruct (list_watches_exact_match seeded_db (Some "sport") (Some "") None) as [H _];
      [reflexivity|]. rewrite H. vm_compute. reflexivity.
  - destruct (list_watches_exact_match seeded_db (Some "Sport") None (Some "")) as [H _];
      [reflexivity|]. rewrite H. vm_compute. reflexivity.
  - destruct (list_watches_exact_match seeded_db (Some "") None (Some "")) as [_ H];
      [reflexivity|]. apply H; reflexivity.
Defined.

Lemma title_contains_lower q q' doc :
  lower_string q = lower_string q' → title_contains q doc = title_contains q' doc.
Proof.
  intros H. unfold title_contains, field_holds, ci_substringb. rewrite H. done.
Qed.

(** X20: the letter case of a search pattern without metacharacters does not
    matter: two such patterns that differ in case only get the same
    answer. *)
Theorem search_ignores_case_of_q (d : Database) (collection brand : option string)
    (q q' : string) :
  q ≠ EmptyString → plain_pattern q = true →
  lower_string q = lower_string q' →
  list_watches collection brand (Some q') (Some d) =
    list_watches collection brand (Some q) (Some d).
Proof.
  intros Hq Hplain Hlower.
  assert (Hq' : q' ≠ EmptyString).
  { intros ->. destruct q; [done|discriminate Hlower]. }
  assert (Hplain' : plain_pattern q' = true).
  { by rewrite <- plain_pattern_lower, <- Hlower, plain_pattern_lower. }
  rewrite (list_watches_run d _ _ q Hq Hplain), (list_watches_run d _ _ q' Hq' Hplain').
  do 3 f_equal. apply List.filter_ext. intros doc. unfold watch_filter.
  by rewrite (title_contains_lower q q').
Qed.

(** ["SPORT 300"] and ["sport 300"] both find the AquaSport 300. *)
Lemma search_ignores_case_of_q_witness :
  list_watches None (Some "Pelagos") (Some "SPORT 300") (Some seeded_db) =
    list_watches None (Some "Pelagos") (Some "sport 300") (Some seeded_db)
  ∧ list_watches None (Some "Pelagos") (Some "sport 300") (Some seeded_db) =
      (Return (items_response [Document 2%N (default ∅ (sample !! 2%nat))]), Some seeded_db).
Proof.
  split.
  - apply (search_ignores_case_of_q seeded_db None (Some "Pelagos") "sport 300" "SPORT 300").
    + discriminate.
    + reflexivity.
    + reflexivity.
  - vm_compute. reflexivity.
Defined.

(** ** Seeding *)

(** X21: seeding touches the watch collection only: every other collection
    is as it was, and the watches that were stored are still there, first
    and unchanged. *)
Theorem seed_touches_watches_only (d : Database) :
  ∃ d' new,
    (seed_watches (Some d)).2 = Some d'
    ∧ db_collection d' "watch" = (db_collection d "watch" ++ new)%list
    ∧ ∀ name, name ≠ "watch" → db_collection d' name = db_collection d name.
Proof.
  rewrite seed_run. destruct (db_collection d "watch") as [|w ws] eqn:E.
  - destruct (effect_appends d (seeded d) "watch" (effect_seed d E)) as [new Hnew].
    exists (seeded d), new. split; [done|]. split; [by rewrite Hnew, E|].
    intros name Hname. by apply seeded_other.
  - exists d, []. split; [done|]. split; [by rewrite app_nil_r|done].
Qed.

(** ** The diagnostic endpoint *)

Import diagnostics.

Lemma first_50_length s : (String.length (first_50 s) ≤ 50)%nat.
Proof.
  unfold first_50. generalize 50%nat. intros n. revert s.
  induction n as [|n IH]; intros [|c s]; cbn; try lia.
  specialize (IH s). lia.
Qed.

Lemma first_50_short s : (String.length s ≤ 50)%nat → first_50 s = s.
Proof.
  unfold first_50. generalize 50%nat. intros n. revert s.
  induction n as [|n IH]; intros [|c s]; cbn; intros H; try done; try lia.
  rewrite IH by lia. done.
Qed.

(** X22: [GET /test] always reports the backend as running and never reports
    a connection: [connection_status] stays "Not Connected" also when the
    store is connected and working. *)
Theorem test_database_fixed_fields (environ : gmap string string)
    (list_collection_names : Database → listing) (db : option Database) :
  let answer := test_database environ list_collection_names db in
  field_of answer "backend" = Some (VStr "✅ Running")
  ∧ field_of answer "connection_status" = Some (VStr "Not Connected").
Proof.
  unfold test_database. destruct db as [d|]; [|by split].
  unfold try_except_as, mbind, Step_bind, set_item.
  destruct (list_collection_names d); by split.
Qed.

(** X23: [GET /test] lists at most ten collections: the first ten names the
    driver lists, and none when there is no store or the listing fails. *)
Theorem test_database_collections (environ : gmap string string)
    (list_collection_names : Database → listing) (db : option Database) :
  let answer := test_database environ list_collection_names db in
  let listed :=
    match db with
    | Some d =>
        match list_collection_names d with
        | Listed names => take 10 names
        | Listing_raises _ => []
        end
    | None => []
    end in
  field_of answer "collections" = Some (VList (VStr <$> listed))
  ∧ (length listed ≤ 10)%nat.
Proof.
  unfold test_database. destruct db as [d|]; [|split; [done|cbn; lia]].
  unfold try_except_as, mbind, Step_bind, set_item.
  destruct (list_collection_names d) as [names|message].
  - split; [done|]. rewrite length_take. lia.
  - split; [done|cbn; lia].
Qed.

(** X24: what [GET /test] says of the store: without a store it is "not
    initialized" and the two environment variables are not reported, set or
    not; with a store they are reported as set when set and not empty, and
    a failing listing is reported with at most 50 characters of its
    message. *)
Theorem test_database_reports (environ : gmap string string)
    (list_collection_names : Database → listing) (db : option Database) :
  let answer := test_database environ list_collection_names db in
  let reported k :=
    VStr (if getenv_truthy environ k then "✅ Set" else "❌ Not Set") in
  match db with
  | None =>
      field_of answer "database" = Some (VStr "❌ Database not initialized")
      ∧ field_of answer "database_url" = Some VNone
      ∧ field_of answer "database_name" = Some VNone
  | Some d =>
      field_of answer "database_url" = Some (reported "DATABASE_URL")
      ∧ field_of answer "database_name" = Some (reported "DATABASE_NAME")
      ∧ match list_collection_names d with
        | Listed _ => field_of answer "database" = Some (VStr "✅ Connected & Working")
        | Listing_raises message =>
            ∃ shown,
              field_of answer "database" = Some (VStr ("⚠️  Connected but Error: " ++ shown))
              ∧ (String.length shown ≤ 50)%nat
              ∧ String.prefix shown message = true
              ∧ ((String.length message ≤ 50)%nat → shown = message)
        end
  end.
Proof.
  unfold test_database. destruct db as [d|]; [|done].
  unfold try_except_as, mbind, Step_bind, set_item.
  destruct (list_collection_names d) as [names|message]; [done|].
  split; [done|]. split; [done|].
  exists (first_50 message). split; [done|]. split; [apply first_50_length|].
  split; [|apply first_50_short].
  unfold first_50. generalize 50%nat. intros n. revert message.
  induction n as [|n IH]; intros [|c s]; cbn; try done.
  destruct (ascii_dec c c); [apply IH|done].
Qed.

(** ** The cart items against their schema *)

(** X25: what [POST /cart/add] stores, for a quantity of 64 bits at most
    (which the store takes) and a product with a float price and textual
    or missing title and image, has the types of the [CartItem] schema, and
    is within its bounds exactly when the quantity of the request is at
    least 1 and the price is not below zero: the endpoint itself checks
    neither. *)
Theorem stored_item_against_schema (d : Database) (payload : AddToCartIn.t)
    (o : ObjectId) (w : document) (p : float) :
  int64 (AddToCartIn.quantity payload) →
  Oid.parse (AddToCartIn.product_id payload) = Return o →
  watch_by_id d o = Some w →
  fields w !! "price" = Some (VFloat p) →
  schemas.is_optional_str (fields w !! "title") = true →
  schemas.is_optional_str (fields w !! "image") = true →
  ∃ item,
    add_to_cart payload (Some d) =
      (Return (VDict (py_dict [("status", VStr "ok")])), Some (inserted d "cartitem" item))
    ∧ schemas.CartItem item = (1 <=? AddToCartIn.quantity payload) && (0 <=? p)%float.
Proof.
  intros _ Ho Hw Hp Ht Hi. exists (cart_item payload (to_dict w) (VFloat p)). split.
  - rewrite add_to_cart_run, Ho, Hw. unfold dict_get.
    rewrite to_dict_lookup, Hp by done. done.
  - unfold schemas.CartItem, cart_item.
    replace (py_dict _ !! "cart_id") with (Some (VStr (AddToCartIn.cart_id payload))) by done.
    replace (py_dict _ !! "product_id")
      with (Some (VStr (AddToCartIn.product_id payload))) by done.
    replace (py_dict _ !! "quantity") with (Some (VInt (AddToCartIn.quantity payload))) by done.
    replace (py_dict _ !! "price_snapshot") with (Some (VFloat p)) by done.
    replace (py_dict _ !! "title_snapshot")
      with (Some (dict_get "title" VNone (to_dict w))) by done.
    replace (py_dict _ !! "image_snapshot")
      with (Some (dict_get "image" VNone (to_dict w))) by done.
    unfold dict_get. rewrite !to_dict_lookup by done.
    cbn [schemas.is_str schemas.is_float_ge_0 andb].
    assert (Hopt : ∀ v, schemas.is_optional_str v = true →
                        schemas.is_optional_str (Some (default VNone v)) = true).
    { by intros [[]|]. }
    rewrite (Hopt _ Ht), (Hopt _ Hi). by rewrite !andb_true_r.
Qed.

Lemma stored_item_against_schema_witness :
  let payload := AddToCartIn.validate "c1" "000000000000000000000000" (Some 0) in
  ∃ item,
    add_to_cart payload (Some seeded_db) =
      (Return (VDict (py_dict [("status", VStr "ok")])),
       Some (inserted seeded_db "cartitem" item))
    ∧ schemas.CartItem item = false.
Proof.
  intros payload.
  apply (stored_item_against_schema seeded_db payload 0%N
           (Document 0%N (default ∅ (head sample))) 599.0%float);
    first [vm_compute; reflexivity | (unfold int64; cbn; lia)].
Defined.

(** ** What the endpoints read *)

Lemma list_watches_reads_watches d d' collection brand q :
  db_collection d' "watch" = db_collection d "watch" →
  (list_watches collection brand q (Some d')).1 = (list_watches collection brand q (Some d)).1.
Proof.
  intros H. unfold list_watches, with_db, get_documents.
  unfold mbind at 1 3. unfold App_bind. rewrite !find_run, H.
  destruct (compile_query _) as [tests|e]; [|done].
  rewrite !ret_bind, !lift_bind_run, !rename_ids_to_dict. done.
Qed.

(** X26: no endpoint reads the orders: the answer to every request other
    than a checkout is the same with one more order in the store. *)
Theorem answers_ignore_orders (d : Database) (order : dict) (r : request) :
  (∀ payload, r ≠ Checkout payload) →
  (handle r (Some (inserted d "order" order))).1 = (handle r (Some d)).1.
Proof.
  intros Hr.
  assert (Hw : db_collection (inserted d "order" order) "watch" = db_collection d "watch")
    by (by apply inserted_other).
  assert (Hc : db_collection (inserted d "order" order) "cartitem" = db_collection d "cartitem")
    by (by apply inserted_other).
  destruct r; cbn [handle].
  - rewrite !seed_run, Hw. by destruct (0 <? _).
  - by apply list_watches_reads_watches.
  - rewrite !get_watch_run. unfold watch_by_id. rewrite Hw.
    by destruct (Oid.parse _); [destruct (head _)|].
  - rewrite !add_to_cart_run. unfold watch_by_id. rewrite Hw.
    by destruct (Oid.parse _); [destruct (head _); [destruct (Num.py_float _)|]|].
  - rewrite !get_cart_run. unfold cart_docs. by rewrite Hc.
  - by destruct (Hr payload).
Qed.

Lemma answers_ignore_orders_witness :
  (handle (GetCart "c1") (Some (inserted demo_cart "order" ∅))).1 =
    (handle (GetCart "c1") (Some demo_cart)).1.
Proof.
  apply (answers_ignore_orders demo_cart ∅ (GetCart "c1")). discriminate.
Defined.

(** X27: the cart does not follow the catalogue: [GET /cart] answers from the
    cart items alone, so two stores with the same cart items give the same
    answer whatever their watches are; the price shown is the one
    snapshot when the item was added. *)
Theorem cart_ignores_catalogue (d d' : Database) (cart_id : string) :
  db_collection d' "cartitem" = db_collection d "cartitem" →
  (get_cart cart_id (Some d')).1 = (get_cart cart_id (Some d)).1.
Proof. intros H. rewrite !get_cart_run. unfold cart_docs. by rewrite H. Qed.

Lemma cart_ignores_catalogue_witness :
  let d' := inserted demo_cart "watch" (py_dict [("title", VStr "ChronoMaster Pro");
                                                  ("price", VFloat 1.0)]) in
  (get_cart "c1" (Some d')).1 = (get_cart "c1" (Some demo_cart)).1.
Proof.
  intros d'. apply (cart_ignores_catalogue demo_cart d' "c1").
  vm_compute. reflexivity.
Defined.
